(** * runvmtest: environment materialization for VM tests

    A shallow embedding of [tools/runvmtest/main.go].  The program looks up
    a per-architecture table of container artifacts, stages the files and
    directories of every variable the caller has not set, renders each
    variable's template, exports the staged artifacts and executes a
    command with the augmented environment.

    Conventions of the embedding.
    - Go strings are [string]; a Go [error] is its message.
    - [configs] is only indexed, so it is a [gmap]; the template data
      [files.Files] is written and then read by key, so it is a [gmap] too.
    - The maps the program ranges over ([TestEnvConfig], its inner maps,
      [Files], [Directories]) are association lists: Go leaves the order of
      [range] over a map unspecified and the order is observable (in [envv]
      and in the staging sequence), so a value lists the entries in the
      order one execution visits them, and the theorems hold for every such
      order.
    - The operating system, the dagger client and the flag package are a
      record [Host] of the answers one execution receives; the effects of
      the execution are a list of [event]s. *)

From Stdlib Require Import String Ascii List.
From stdpp Require Import gmap strings list fin_maps.

Local Open Scope string_scope.
Local Open Scope list_scope.

(** ** Data model (main.go, lines 36-55) *)

Record EnvVar := {
  Template : string;
  Files : list (string * string);
  Directories : list (string * string)
}.

(** container name -> env var name -> variable config, in visiting order. *)
Definition TestEnvConfig : Type := list (string * list (string * EnvVar)).

(** ** The static table (main.go, lines 57-100) *)

Definition config_amd64 : TestEnvConfig :=
  [ ("ghcr.io/hugelgupf/vmtest/kernel-amd64:main",
      [ ("VMTEST_KERNEL",
          {| Template := "{{.Files.bzImage}}";
             Files := [("bzImage", "/bzImage")];
             Directories := [] |}) ]);
    ("ghcr.io/hugelgupf/vmtest/qemu:main",
      [ ("VMTEST_QEMU",
          {| Template := "{{.Files.qemu}}/bin/qemu-system-x86_64 -L {{.Files.qemu}}/pc-bios -m 1G";
             Files := [];
             Directories := [("qemu", "/zqemu")] |}) ]) ].

Definition config_arm : TestEnvConfig :=
  [ ("ghcr.io/hugelgupf/vmtest/kernel-arm:main",
      [ ("VMTEST_KERNEL",
          {| Template := "{{.Files.zImage}}";
             Files := [("zImage", "/zImage")];
             Directories := [] |}) ]);
    ("ghcr.io/hugelgupf/vmtest/qemu:main",
      [ ("VMTEST_QEMU",
          {| Template := "{{.Files.qemu}}/bin/qemu-system-arm -M virt,highmem=off -L {{.Files.qemu}}/pc-bios";
             Files := [];
             Directories := [("qemu", "/zqemu")] |}) ]) ].

Definition config_arm64 : TestEnvConfig :=
  [ ("ghcr.io/hugelgupf/vmtest/kernel-arm64:main",
      [ ("VMTEST_KERNEL",
          {| Template := "{{.Files.Image}}";
             Files := [("Image", "/Image")];
             Directories := [] |}) ]);
    ("ghcr.io/hugelgupf/vmtest/qemu:main",
      [ ("VMTEST_QEMU",
          {| Template := "{{.Files.qemu}}/bin/qemu-system-aarch64 -machine virt -cpu max -m 1G -L {{.Files.qemu}}/pc-bios";
             Files := [];
             Directories := [("qemu", "/zqemu")] |}) ]) ].

(** GOARCH -> config. *)
Definition configs : gmap string TestEnvConfig :=
  <["amd64" := config_amd64]>
  (<["arm" := config_arm]>
  (<["arm64" := config_arm64]> ∅)).

(** ** Shared pieces

    [split_on] is [strings.Split] for a separator of one character.
    [result] is the outcome of a step of the model: a value, a Go error, or
    [Unmodelled] when the step leaves the modelled fragment of a library. *)

Fixpoint split_on (sep : ascii) (s : string) : list string :=
  match s with
  | "" => [""]
  | String c s' =>
      if decide (c = sep) then "" :: split_on sep s'
      else match split_on sep s' with
           | x :: xs => String c x :: xs
           | [] => [String c ""]
           end
  end.

Inductive result (A : Type) : Type :=
  | Ok (a : A)
  | Err (msg : string)
  | Unmodelled.
Arguments Ok {A} a.
Arguments Err {A} msg.
Arguments Unmodelled {A}.

#[global] Instance result_bind : MBind result := fun A B k r =>
  match r with
  | Ok a => k a
  | Err e => Err e
  | Unmodelled => Unmodelled
  end.

(** ** The process environment and the file system: package [os]

    The environment is the list of its variables with their values.
    [os.Getenv] answers with the value of the first entry of that name and
    with the empty string when there is none; [os.Environ] lists the
    entries as [NAME=value]. *)

Module os.

Fixpoint Getenv (env : list (string * string)) (key : string) : string :=
  match env with
  | [] => ""
  | (k, v) :: rest => if decide (k = key) then v else Getenv rest key
  end.

Definition assignment (kv : string * string) : string :=
  kv.1 +:+ "=" +:+ kv.2.

Definition Environ (env : list (string * string)) : list string :=
  map assignment env.

(** [os.MkdirTemp dir pattern] for a pattern without [*] and a directory
    that is not empty: the new directory is [dir], a separator unless
    [dir] ends in one, the pattern and a random string chosen by the
    library.  [answer] is that random string, or the error of the system. *)
Fixpoint ends_with_slash (s : string) : bool :=
  match s with
  | "" => false
  | String c "" => bool_decide (c = "/"%char)
  | String _ s' => ends_with_slash s'
  end.

Definition joinPath (dir name : string) : string :=
  if ends_with_slash dir then dir +:+ name else dir +:+ "/" +:+ name.

Definition MkdirTemp (answer : string + string) (dir pattern : string)
    : string + string :=
  match answer with
  | inl random => inl (joinPath dir pattern +:+ random)
  | inr e => inr e
  end.

End os.

(** ** Paths: the part of [path/filepath] the program calls

    [filepath.Clean], [filepath.Join] and [filepath.Abs] on a system whose
    separator is [/], after the rules the library documents: empty and [.]
    elements are dropped, an inner [..] removes the element before it, a
    [..] at the root is dropped, and the empty result is [.]. *)

Module filepath.

Definition IsAbs (path : string) : bool :=
  match path with
  | String c _ => bool_decide (c = "/"%char)
  | "" => false
  end.

(** One path element against the elements written so far; [dotdot] counts
    the leading [..] elements, below which [..] cannot backtrack. *)
Definition clean_step (rooted : bool) (st : list string * nat) (elem : string)
    : list string * nat :=
  let '(out, dotdot) := st in
  if decide (elem = "") then st
  else if decide (elem = ".") then st
  else if decide (elem = "..") then
    if decide (dotdot < length out) then (removelast out, dotdot)
    else if rooted then st
    else ((out ++ [".."])%list, S dotdot)
  else ((out ++ [elem])%list, dotdot).

Definition join_slash (elems : list string) : string := String.concat "/" elems.

Definition Clean (path : string) : string :=
  if decide (path = "") then "."
  else
    let rooted := IsAbs path in
    let out := (fold_left (clean_step rooted) (split_on "/" path) ([], 0)).1 in
    if rooted then "/" +:+ join_slash out
    else if decide (out = []) then "." else join_slash out.

(** [filepath.Join] of two elements: empty elements are ignored and the
    result is cleaned. *)
Definition Join (a b : string) : string :=
  if decide (a = "") then (if decide (b = "") then "" else Clean b)
  else Clean (a +:+ "/" +:+ b).

(** [filepath.Abs]: an absolute path is cleaned, another one is joined to
    the working directory, which the system may fail to report. *)
Definition Abs (getwd : string + string) (path : string) : string + string :=
  if IsAbs path then inl (Clean path)
  else match getwd with
       | inl wd => inl (Join wd path)
       | inr e => inr e
       end.

End filepath.

(** ** Templates: the part of [text/template] the program relies on

    The library is not part of the repository; this is a model of the
    fragment the table uses: text, and actions [{{.A.B}}] that are one chain
    of fields, with spaces allowed around the chain.  A template with any
    other action is outside the fragment ([Unmodelled]) from the first such
    action on; so is a template that ends inside an action holding
    anything but spaces or a chain of fields (the library then reports
    what it met there, a bad character for one).  The data is the
    program's [struct { Files map[string]string }].  The library's messages
    are given without their position prefix ([template: NAME:LINE: ...]),
    and the name of the template, which only appears in that prefix, is
    left out; no statement below depends on the wording of a message of
    the library. *)

Module template.

Inductive piece : Type :=
  | PText (text : string)
  | PAction (body : string)
  | PUnclosed (body : string).

(** Cuts a template at its delimiters, left to right. *)
Fixpoint scan (in_action : bool) (cur : string) (s : string) : list piece :=
  match s with
  | "" => if in_action then [PUnclosed cur] else [PText cur]
  | String c s' =>
      match in_action, s' with
      | false, String c' s'' =>
          if bool_decide (c = "{"%char) && bool_decide (c' = "{"%char)
          then PText cur :: scan true "" s''
          else scan in_action (cur +:+ String c "") s'
      | true, String c' s'' =>
          if bool_decide (c = "}"%char) && bool_decide (c' = "}"%char)
          then PAction cur :: scan false "" s''
          else scan in_action (cur +:+ String c "") s'
      | _, "" => scan in_action (cur +:+ String c "") s'
      end
  end.

Fixpoint trim_left (s : string) : string :=
  match s with
  | String c s' => if decide (c = " "%char) then trim_left s' else s
  | "" => ""
  end.

Fixpoint trim_right (s : string) : string :=
  match s with
  | String c s' =>
      let t := trim_right s' in
      if decide (c = " "%char) then (if decide (t = "") then "" else String c t)
      else String c t
  | "" => ""
  end.

Definition is_letter (c : ascii) : bool :=
  let n := nat_of_ascii c in
  bool_decide (65 ≤ n ≤ 90)%nat || bool_decide (97 ≤ n ≤ 122)%nat
  || bool_decide (n = 95%nat).

Definition is_digit (c : ascii) : bool :=
  let n := nat_of_ascii c in bool_decide (48 ≤ n ≤ 57)%nat.

Fixpoint all_alnum (s : string) : bool :=
  match s with
  | "" => true
  | String c s' => (is_letter c || is_digit c) && all_alnum s'
  end.

Definition is_ident (s : string) : bool :=
  match s with
  | String c s' => is_letter c && all_alnum s'
  | "" => false
  end.

Inductive action : Type :=
  | ActField (ident : list string)
  | ActEmpty
  | ActOther.

Definition parse_action (body : string) : action :=
  match trim_right (trim_left body) with
  | "" => ActEmpty
  | String c chain =>
      if bool_decide (c = "."%char) && forallb is_ident (split_on "." chain)
      then ActField (split_on "." chain)
      else ActOther
  end.

Inductive node : Type :=
  | TextNode (text : string)
  | FieldNode (ident : list string).

Fixpoint parse_pieces (ps : list piece) : result (list node) :=
  match ps with
  | [] => Ok []
  | PText t :: ps' => ns ← parse_pieces ps'; Ok (TextNode t :: ns)
  | PUnclosed body :: _ =>
      match parse_action body with
      | ActOther => Unmodelled
      | _ => Err "unclosed action"
      end
  | PAction body :: ps' =>
      match parse_action body with
      | ActField ident => ns ← parse_pieces ps'; Ok (FieldNode ident :: ns)
      | ActEmpty => Err "missing value for command"
      | ActOther => Unmodelled
      end
  end.

(** [template.New(name).Parse(text)] *)
Definition Parse (text : string) : result (list node) :=
  parse_pieces (scan false "" text).

(** A chain of fields on the data.  [Files] is the one field of the struct;
    a key the map does not have yields no value, which the library prints
    as [<no value>] (its default for missing keys) without an error. *)
Definition eval_field (files : gmap string string) (ident : list string)
    : result string :=
  match ident with
  | [] => Unmodelled
  | field :: keys =>
      if decide (field = "Files") then
        match keys with
        | [key] =>
            match files !! key with
            | Some v => Ok v
            | None => Ok "<no value>"
            end
        | _ => Unmodelled
        end
      else Err ("can't evaluate field " +:+ field
                +:+ " in type struct { Files map[string]string }")
  end.

(** [tmpl.Execute(&s, files)]: the output, or the first error. *)
Fixpoint Execute (nodes : list node) (files : gmap string string)
    : result string :=
  match nodes with
  | [] => Ok ""
  | TextNode t :: ns => s ← Execute ns files; Ok (t +:+ s)
  | FieldNode ident :: ns =>
      v ← eval_field files ident;
      s ← Execute ns files;
      Ok (v +:+ s)
  end.

End template.

(** ** defaultConfig (main.go, lines 102-112) *)

Definition defaultConfig (env : list (string * string)) (GOARCH : string)
    : TestEnvConfig :=
  let arch := os.Getenv env "VMTEST_ARCH" in
  match configs !! arch with
  | Some c => c
  | None =>
      match configs !! GOARCH with
      | Some c => c
      | None => []
      end
  end.

(** ** The container under assembly

    [base] is built by [WithFile] and [WithDirectory]; it is the sequence of
    these operations.  [WithFile path image src] places at [path] the file
    [src] of the container image [image]. *)

Inductive stage_op : Type :=
  | WithFile (path image src : string)
  | WithDirectory (path image src : string).

Record loop_state := { base : list stage_op; envv : list string }.

(** ** The loop of runNatively (main.go, lines 175-208) *)

Section loop.
Context (env : list (string * string)) (tmp : string).

(** lines 189-192 *)
Definition stage_file (containerName : string)
    (st : list stage_op * gmap string string) (entry : string * string)
    : list stage_op * gmap string string :=
  let '(templateName, file) := entry in
  ((st.1 ++ [WithFile file containerName file])%list,
   <[templateName := filepath.Join tmp file]> st.2).

(** lines 193-196 *)
Definition stage_directory (containerName : string)
    (st : list stage_op * gmap string string) (entry : string * string)
    : list stage_op * gmap string string :=
  let '(templateName, dir) := entry in
  ((st.1 ++ [WithDirectory dir containerName dir])%list,
   <[templateName := filepath.Join tmp dir]> st.2).

(** lines 184-196: the files, then the directories, into a fresh
    [files.Files]. *)
Definition stage (containerName : string) (varConf : EnvVar)
    (b : list stage_op) : list stage_op * gmap string string :=
  fold_left (stage_directory containerName) (Directories varConf)
    (fold_left (stage_file containerName) (Files varConf) (b, ∅)).

(** lines 198-205 *)
Definition render (varName : string) (varConf : EnvVar)
    (files : gmap string string) : result string :=
  match template.Parse (Template varConf) with
  | Err e => Err ("invalid " +:+ varName +:+ " template: " +:+ e)
  | Unmodelled => Unmodelled
  | Ok tmpl =>
      match template.Execute tmpl files with
      | Err e => Err ("failed to substitute " +:+ varName
                      +:+ " template variables: " +:+ e)
      | Unmodelled => Unmodelled
      | Ok s => Ok s
      end
  end.

(** lines 178-207: one variable of one container. *)
Definition range_var (containerName : string) (st : loop_state)
    (entry : string * EnvVar) : result loop_state :=
  let '(varName, varConf) := entry in
  if decide (os.Getenv env varName ≠ "") then Ok st
  else
    let staged := stage containerName varConf (base st) in
    s ← render varName varConf staged.2;
    Ok {| base := staged.1;
          envv := (envv st ++ [varName +:+ "=" +:+ s])%list |}.

Fixpoint range_envs (containerName : string) (envs : list (string * EnvVar))
    (st : loop_state) : result loop_state :=
  match envs with
  | [] => Ok st
  | entry :: rest =>
      st' ← range_var containerName st entry;
      range_envs containerName rest st'
  end.

(** lines 177-208 *)
Fixpoint range_config (config : TestEnvConfig) (st : loop_state)
    : result loop_state :=
  match config with
  | [] => Ok st
  | (containerName, envs) :: rest =>
      st' ← range_envs containerName envs st;
      range_config rest st'
  end.
End loop.

(** The state of the loop when it starts (lines 175-176). *)
Definition start : loop_state := {| base := []; envv := [] |}.

(** ** The host and the effects of one execution *)

Record Host := {
  environ : list (string * string);   (* the process environment *)
  GOARCH : string;                    (* runtime.GOARCH *)
  os_Args0 : string;                  (* os.Args[0] *)
  keepArtifacts : bool;               (* the flag -keep-artifacts *)
  flag_Args : list string;            (* flag.Args() after flag.Parse() *)
  dagger_Connect : option string;     (* the error of dagger.Connect *)
  os_MkdirTemp : string + string;     (* random part of the name, or error *)
  os_Getwd : string + string;         (* working directory, or error *)
  dagger_Export : bool * option string; (* ok and err of artifacts.Export *)
  cmd_Run : option string             (* the error of cmd.Run *)
}.

(** [Exec name args env] is the call of [cmd.Run] on the command built at
    line 215, [env] being the list assigned to [cmd.Env] at line 216, as
    the program builds it: what [os/exec] makes of that list (it keeps the
    last of several entries of one name) is not part of the event. *)
Inductive event : Type :=
  | Connect
  | Close
  | MkdirTempCall (dir pattern : string)
  | Export (staged : list stage_op) (dest : string)
  | Exec (name : string) (args : list string) (env : list string)
  | Stdout (text : string)
  | RemoveAll (path : string).

(** [Panics msg]: a run-time panic, [msg] being the text of the run-time
    error after its prefix [runtime error: ]. *)
Inductive outcome : Type :=
  | Returns (err : option string)
  | Panics (msg : string)
  | OutsideModel.

Definition nl : string := String (ascii_of_nat 10) "".

(** lines 221-227, the deferred print. *)
Definition print_assignments (assignments : list string) : list event :=
  [ Stdout (nl +:+ "To run another test using the same artifacts:" +:+ nl);
    Stdout (String.concat " " assignments +:+ " ..." +:+ nl) ].

(** ** runNatively (main.go, lines 133-233)

    The interrupt handler (lines 136-157) is not modelled.  Its goroutine
    waits for a signal or for the end of the context it reads in [ctx] when
    it starts, a variable that line 160 assigns anew, and the deferred
    [wg.Wait()] waits for that goroutine.  The executions modelled here are
    those that receive no signal and in which every call returns,
    [wg.Wait()] among them: the outcome and the trace say what the function
    does on its way to its return, not that it gets there.  Deferred calls
    appear in the trace where they run: at the return, last registered
    first. *)
Definition runNatively (h : Host) (config : TestEnvConfig) (args : list string)
    : outcome * list event :=
  match os.MkdirTemp (os_MkdirTemp h) "." "ci-testing" with
  | inr e =>
      (Returns (Some ("unable to create tmp dir: " +:+ e)),
       [MkdirTempCall "." "ci-testing"])
  | inl tmpDir =>
      let cleanup := if keepArtifacts h then [] else [RemoveAll tmpDir] in
      match filepath.Abs (os_Getwd h) tmpDir with
      | inr e =>
          (Returns (Some ("could not retrieve absolute path: " +:+ e)),
           MkdirTempCall "." "ci-testing" :: cleanup)
      | inl tmp =>
          match range_config (environ h) tmp config start with
          | Unmodelled => (OutsideModel, [MkdirTempCall "." "ci-testing"])
          | Err e =>
              (Returns (Some e), MkdirTempCall "." "ci-testing" :: cleanup)
          | Ok st =>
              let exported :=
                [MkdirTempCall "." "ci-testing"; Export (base st) tmpDir] in
              match dagger_Export h with
              | (true, None) =>
                  match args with
                  | [] =>
                      (Panics "slice bounds out of range [1:0]",
                       (exported ++ cleanup)%list)
                  | name :: rest =>
                      let printed :=
                        if keepArtifacts h then print_assignments (envv st)
                        else [] in
                      let trace :=
                        (exported
                         ++ [Exec name rest (os.Environ (environ h) ++ envv st)]
                         ++ printed ++ cleanup)%list in
                      match cmd_Run h with
                      | Some e =>
                          (Returns (Some ("failed execution: " +:+ e)), trace)
                      | None => (Returns None, trace)
                      end
                  end
              | (_, Some e) =>
                  (Returns (Some ("failed artifact export: " +:+ e)),
                   (exported ++ cleanup)%list)
              | (false, None) =>
                  (Returns (Some "failed artifact export: %!w(<nil>)"),
                   (exported ++ cleanup)%list)
              end
          end
      end
  end.

(** ** run (main.go, lines 114-131)

    [run] from the return of [flag.Parse] (line 117) on: the flag and the
    arguments of [Host] are what it parsed.  The executions that
    [flag.Parse] ends itself are in [main]. *)
Definition run (h : Host) : outcome * list event :=
  let config := defaultConfig (environ h) (GOARCH h) in
  if decide (length (flag_Args h) < 2) then
    (Returns (Some ("too few arguments: usage: `" +:+ os_Args0 h
                    +:+ " -- ./test-to-run`")), [])
  else
    match dagger_Connect h with
    | Some e => (Returns (Some ("unable to connect to client: " +:+ e)), [])
    | None =>
        let r := runNatively h config (flag_Args h) in
        (r.1, (Connect :: r.2 ++ [Close])%list)
    end.

(** The target command was executed: [cmd.Run] was called. *)
Definition executed (trace : list event) : Prop :=
  ∃ name args env, Exec name args env ∈ trace.

(** ** The program over any text/template

    The loop and [runNatively] once more, with the library as a
    parameter instead of the model of one fragment of it:
    [engine_Parse name text] is [template.New(name).Parse(text)] and
    [engine_Execute tmpl files] is [tmpl.Execute(&s, files)]; each answers
    with its value or with the message of its error, for every template.
    What is proved of these definitions holds whatever the library does. *)

Record Engine := {
  engine_Tmpl : Type;
  engine_Parse : string → string → engine_Tmpl + string;
  engine_Execute : engine_Tmpl → gmap string string → string + string
}.

Section with_engine.
Context (E : Engine) (env : list (string * string)) (tmp : string).

(** lines 198-205 *)
Definition render_with (varName : string) (varConf : EnvVar)
    (files : gmap string string) : result string :=
  match engine_Parse E ("var-" +:+ varName) (Template varConf) with
  | inr e => Err ("invalid " +:+ varName +:+ " template: " +:+ e)
  | inl tmpl =>
      match engine_Execute E tmpl files with
      | inr e => Err ("failed to substitute " +:+ varName
                      +:+ " template variables: " +:+ e)
      | inl s => Ok s
      end
  end.

(** lines 178-207 *)
Definition range_var_with (containerName : string) (st : loop_state)
    (entry : string * EnvVar) : result loop_state :=
  let '(varName, varConf) := entry in
  if decide (os.Getenv env varName ≠ "") then Ok st
  else
    let staged := stage tmp containerName varConf (base st) in
    s ← render_with varName varConf staged.2;
    Ok {| base := staged.1;
          envv := (envv st ++ [varName +:+ "=" +:+ s])%list |}.

Fixpoint range_envs_with (containerName : string)
    (envs : list (string * EnvVar)) (st : loop_state) : result loop_state :=
  match envs with
  | [] => Ok st
  | entry :: rest =>
      st' ← range_var_with containerName st entry;
      range_envs_with containerName rest st'
  end.

(** lines 177-208 *)
Fixpoint range_config_with (config : TestEnvConfig) (st : loop_state)
    : result loop_state :=
  match config with
  | [] => Ok st
  | (containerName, envs) :: rest =>
      st' ← range_envs_with containerName envs st;
      range_config_with rest st'
  end.
End with_engine.

(** lines 133-233, as [runNatively]. *)
Definition runNatively_with (E : Engine) (h : Host) (config : TestEnvConfig)
    (args : list string) : outcome * list event :=
  match os.MkdirTemp (os_MkdirTemp h) "." "ci-testing" with
  | inr e =>
      (Returns (Some ("unable to create tmp dir: " +:+ e)),
       [MkdirTempCall "." "ci-testing"])
  | inl tmpDir =>
      let cleanup := if keepArtifacts h then [] else [RemoveAll tmpDir] in
      match filepath.Abs (os_Getwd h) tmpDir with
      | inr e =>
          (Returns (Some ("could not retrieve absolute path: " +:+ e)),
           MkdirTempCall "." "ci-testing" :: cleanup)
      | inl tmp =>
          match range_config_with E (environ h) tmp config start with
          | Unmodelled => (OutsideModel, [MkdirTempCall "." "ci-testing"])
          | Err e =>
              (Returns (Some e), MkdirTempCall "." "ci-testing" :: cleanup)
          | Ok st =>
              let exported :=
                [MkdirTempCall "." "ci-testing"; Export (base st) tmpDir] in
              match dagger_Export h with
              | (true, None) =>
                  match args with
                  | [] =>
                      (Panics "slice bounds out of range [1:0]",
                       (exported ++ cleanup)%list)
                  | name :: rest =>
                      let printed :=
                        if keepArtifacts h then print_assignments (envv st)
                        else [] in
                      let trace :=
                        (exported
                         ++ [Exec name rest (os.Environ (environ h) ++ envv st)]
                         ++ printed ++ cleanup)%list in
                      match cmd_Run h with
                      | Some e =>
                          (Returns (Some ("failed execution: " +:+ e)), trace)
                      | None => (Returns None, trace)
                      end
                  end
              | (_, Some e) =>
                  (Returns (Some ("failed artifact export: " +:+ e)),
                   (exported ++ cleanup)%list)
              | (false, None) =>
                  (Returns (Some "failed artifact export: %!w(<nil>)"),
                   (exported ++ cleanup)%list)
              end
          end
      end
  end.

(** An engine whose [Parse] rejects every template, and one whose
    [Execute] fails on every template: two answers a library can give. *)
Definition engine_rejecting (cause : string) : Engine :=
  {| engine_Tmpl := unit;
     engine_Parse := λ _ _, inr cause;
     engine_Execute := λ _ _, inl "" |}.

Definition engine_failing (cause : string) : Engine :=
  {| engine_Tmpl := unit;
     engine_Parse := λ _ _, inl ();
     engine_Execute := λ _ _, inr cause |}.

Definition host_amd64 : Host :=
  {| environ := [("HOME", "/home/u"); ("PATH", "/usr/bin")];
     GOARCH := "amd64";
     os_Args0 := "runvmtest";
     keepArtifacts := false;
     flag_Args := ["echo"; "hi"];
     dagger_Connect := None;
     os_MkdirTemp := inl "4021";
     os_Getwd := inl "/home/u/vmtest";
     dagger_Export := (true, None);
     cmd_Run := None |}.

(** The usage line of the program, followed to the letter. *)
Definition host_single_command : Host :=
  {| environ := [("HOME", "/home/u")];
     GOARCH := "amd64";
     os_Args0 := "runvmtest";
     keepArtifacts := false;
     flag_Args := ["./test-to-run"];
     dagger_Connect := None;
     os_MkdirTemp := inl "4021";
     os_Getwd := inl "/home/u/vmtest";
     dagger_Export := (true, None);
     cmd_Run := None |}.

(** An architecture the table does not have, nothing set by the caller. *)
Definition host_riscv64 : Host :=
  {| environ := [("HOME", "/home/u")];
     GOARCH := "riscv64";
     os_Args0 := "runvmtest";
     keepArtifacts := false;
     flag_Args := ["echo"; "hi"];
     dagger_Connect := None;
     os_MkdirTemp := inl "77";
     os_Getwd := inl "/home/u/vmtest";
     dagger_Export := (true, None);
     cmd_Run := None |}.

(** [files.Files] as the template of a variable sees it. *)
Definition template_data (tmp : string) (varConf : EnvVar) : gmap string string :=
  (stage tmp "" varConf []).2.

(** What one variable adds to [base]. *)
Definition stage_ops (containerName : string) (varConf : EnvVar) : list stage_op :=
  (map (λ e : string * string, WithFile e.2 containerName e.2) (Files varConf)
   ++ map (λ e : string * string, WithDirectory e.2 containerName e.2)
        (Directories varConf))%list.

(** The variables the loop does not skip, in visiting order, each with the
    name of its container. *)
Definition survivors (env : list (string * string)) (config : TestEnvConfig)
    : list (string * string * EnvVar) :=
  config ≫= λ ce : string * list (string * EnvVar),
    filter (λ x : string * string * EnvVar, os.Getenv env x.1.2 = "")
      ((λ e : string * EnvVar, (ce.1, e.1, e.2)) <$> ce.2).

(** The body of the loop for a variable that is not skipped. *)
Definition materialize (tmp : string) (st : loop_state)
    (x : string * string * EnvVar) : result loop_state :=
  s ← render x.1.2 x.2 (template_data tmp x.2);
  Ok {| base := base st ++ stage_ops x.1.1 x.2;
        envv := envv st ++ [x.1.2 +:+ "=" +:+ s] |}.

Fixpoint materialize_all (tmp : string) (l : list (string * string * EnvVar))
    (st : loop_state) : result loop_state :=
  match l with
  | [] => Ok st
  | x :: l' => st' ← materialize tmp st x; materialize_all tmp l' st'
  end.

Definition is_Export (e : event) : bool :=
  match e with Export _ _ => true | _ => false end.

(** The error of [run] when [cmd.Run] returns [e] (lines 229-232). *)
Definition wrap_run_error (e : option string) : option string :=
  (λ msg, "failed execution: " +:+ msg) <$> e.

(** The message is one of the two the loop wraps around a template error
    of the variable [varName]. *)
Definition names_variable (msg varName : string) : Prop :=
  ∃ cause,
    msg = "invalid " +:+ varName +:+ " template: " +:+ cause ∨
    msg = "failed to substitute " +:+ varName +:+ " template variables: " +:+ cause.

(** Artifacts kept, and the command fails. *)
Definition host_keep_failing : Host :=
  {| environ := [("HOME", "/home/u"); ("VMTEST_QEMU", "qemu-system-x86_64")];
     GOARCH := "amd64";
     os_Args0 := "runvmtest";
     keepArtifacts := true;
     flag_Args := ["go"; "test"; "./..."];
     dagger_Connect := None;
     os_MkdirTemp := inl "9";
     os_Getwd := inl "/src";
     dagger_Export := (true, None);
     cmd_Run := Some "exit status 1" |}.

(** The configuration with every spec of the variable [v] deleted. *)
Definition without_var (v : string) (config : TestEnvConfig) : TestEnvConfig :=
  (λ ce : string * list (string * EnvVar),
     (ce.1, filter (λ e : string * EnvVar, e.1 ≠ v) ce.2)) <$> config.

(** The caller has set VMTEST_QEMU. *)
Definition host_override : Host :=
  {| environ := [("VMTEST_QEMU", "qemu-system-x86_64 -enable-kvm")];
     GOARCH := "amd64";
     os_Args0 := "runvmtest";
     keepArtifacts := false;
     flag_Args := ["go"; "test"];
     dagger_Connect := None;
     os_MkdirTemp := inl "5";
     os_Getwd := inl "/w";
     dagger_Export := (true, None);
     cmd_Run := None |}.

(** A template that names a file the spec does not declare. *)
Definition config_undeclared : TestEnvConfig :=
  [ ("ghcr.io/hugelgupf/vmtest/kernel-amd64:main",
      [ ("VMTEST_KERNEL",
          {| Template := "{{.Files.kernel}}";
             Files := [("bzImage", "/bzImage")];
             Directories := [] |}) ]) ].

(** A template whose action is not closed. *)
Definition config_malformed : TestEnvConfig :=
  [ ("ghcr.io/hugelgupf/vmtest/kernel-amd64:main",
      [ ("VMTEST_KERNEL",
          {| Template := "{{.Files.bzImage";
             Files := [("bzImage", "/bzImage")];
             Directories := [] |}) ]) ].

(** A template that parses and names a field the data does not have. *)
Definition config_bad_field : TestEnvConfig :=
  [ ("ghcr.io/hugelgupf/vmtest/qemu:main",
      [ ("VMTEST_QEMU",
          {| Template := "{{.Dirs.qemu}}/bin/qemu-system-x86_64";
             Files := [];
             Directories := [("qemu", "/zqemu")] |}) ]) ].

(** The export reports failure without an error. *)
Definition host_export_fails : Host :=
  {| environ := [("HOME", "/home/u")];
     GOARCH := "amd64";
     os_Args0 := "runvmtest";
     keepArtifacts := false;
     flag_Args := ["echo"; "hi"];
     dagger_Connect := None;
     os_MkdirTemp := inl "31";
     os_Getwd := inl "/w";
     dagger_Export := (false, None);
     cmd_Run := None |}.

(** The exports of a trace. *)
Definition exports (trace : list event) : list event :=
  List.filter is_Export trace.

(** Path elements: no separator inside, and neither empty nor [.] nor [..]. *)
Fixpoint slash_free (s : string) : bool :=
  match s with
  | "" => true
  | String c s' => negb (bool_decide (c = "/"%char)) && slash_free s'
  end.

Definition element (e : string) : Prop :=
  e ≠ "" ∧ e ≠ "." ∧ e ≠ ".." ∧ slash_free e = true.

(** A clean absolute path below the root: [/e1/.../en] with [n] at least 1. *)
Definition clean_abs (p : string) : Prop :=
  ∃ out, out ≠ [] ∧ Forall element out ∧ p = "/" +:+ filepath.join_slash out.

(** The two specs of amd64 (lines 60-63 and 66-69). *)
Definition spec_kernel_amd64 : EnvVar :=
  {| Template := "{{.Files.bzImage}}";
     Files := [("bzImage", "/bzImage")];
     Directories := [] |}.

Definition spec_qemu_amd64 : EnvVar :=
  {| Template := "{{.Files.qemu}}/bin/qemu-system-x86_64 -L {{.Files.qemu}}/pc-bios -m 1G";
     Files := [];
     Directories := [("qemu", "/zqemu")] |}.

(** Membership in a trace that is written out. *)
Ltac in_trace :=
  solve [ cbn; rewrite ?elem_of_app, ?elem_of_cons, ?elem_of_nil;
          intuition (try discriminate; eauto) ].

(** ** main (main.go, lines 30-34)

    [flag.Parse] (line 117) works on [flag.CommandLine], which is
    [flag.ExitOnError]: on a request for help it prints the usage and ends
    the process with status 0, on a command line it rejects it prints the
    error and ends the process with status 2, in both cases before [run]
    has done anything but resolve the configuration.  [log.Fatalf] writes
    the message to the log and ends the process with status 1; the time
    stamp the logger puts before the message is left out.  A panic that
    nothing recovers ends the process with status 2.  Executions that a
    signal ends are not modelled. *)
Inductive flag_answer : Type :=
  | FlagsParsed
  | FlagsHelp
  | FlagsRejected.

Inductive exit : Type :=
  | Exit (status : nat) (logged : option string)
  | ExitUnmodelled.

Definition main (flags : flag_answer) (h : Host) : exit * list event :=
  match flags with
  | FlagsHelp => (Exit 0 None, [])
  | FlagsRejected => (Exit 2 None, [])
  | FlagsParsed =>
      let r := run h in
      match r.1 with
      | Returns None => (Exit 0 None, r.2)
      | Returns (Some err) => (Exit 1 (Some ("Error: " +:+ err)), r.2)
      | Panics msg => (Exit 2 (Some ("panic: runtime error: " +:+ msg)), r.2)
      | OutsideModel => (ExitUnmodelled, r.2)
      end
  end.

(** The removals of a trace. *)
Definition is_RemoveAll (e : event) : bool :=
  match e with RemoveAll _ => true | _ => false end.

Definition removals (trace : list event) : list event :=
  List.filter is_RemoveAll trace.

(** Splits a trace that is written out before its last event. *)
Ltac before_last :=
  match goal with
  | |- ∃ before, ?trace = _ ∧ _ =>
      exists (removelast trace); split; reflexivity
  end.

(** The template of a variable renders over its data. *)
Definition renders (tmp : string) (x : string * string * EnvVar) : Prop :=
  ∃ s, render x.1.2 x.2 (template_data tmp x.2) = Ok s.

(** The assignment of a variable whose template renders. *)
Definition entry_of (tmp : string) (x : string * string * EnvVar) : string :=
  x.1.2 +:+ "="
  +:+ match render x.1.2 x.2 (template_data tmp x.2) with
      | Ok s => s
      | _ => ""
      end.

(** The same configuration visited in another order: the variables of each
    container permuted, and the containers permuted. *)
Definition reordered (config config' : TestEnvConfig) : Prop :=
  ∃ mid,
    Forall2 (λ a b : string * list (string * EnvVar), a.1 = b.1 ∧ a.2 ≡ₚ b.2)
      config mid ∧
    mid ≡ₚ config'.

(** VMTEST_KERNEL is in the environment, with the empty value. *)
Definition host_empty_value : Host :=
  {| environ := [("VMTEST_KERNEL", ""); ("VMTEST_QEMU", "qemu-system-x86_64")];
     GOARCH := "amd64";
     os_Args0 := "runvmtest";
     keepArtifacts := false;
     flag_Args := ["go"; "test"];
     dagger_Connect := None;
     os_MkdirTemp := inl "8";
     os_Getwd := inl "/w";
     dagger_Export := (true, None);
     cmd_Run := None |}.

(** Both variables set by the caller. *)
Definition host_all_set : Host :=
  {| environ := [("VMTEST_KERNEL", "/boot/vmlinuz"); ("VMTEST_QEMU", "qemu-system-x86_64")];
     GOARCH := "amd64";
     os_Args0 := "runvmtest";
     keepArtifacts := false;
     flag_Args := ["go"; "test"];
     dagger_Connect := None;
     os_MkdirTemp := inl "8";
     os_Getwd := inl "/w";
     dagger_Export := (true, None);
     cmd_Run := None |}.

(** Two variables with malformed templates. *)
Definition config_two_malformed : TestEnvConfig :=
  [ ("image-a",
      [ ("A", {| Template := "{{.Files.a"; Files := [("a", "/a")];
                 Directories := [] |}) ]);
    ("image-b",
      [ ("B", {| Template := "{{}}"; Files := []; Directories := [] |}) ]) ].

(** A name declared as a file and as a directory. *)
Definition spec_file_and_directory : EnvVar :=
  {| Template := "{{.Files.x}} {{.Files.y}}";
     Files := [("x", "/file-x"); ("y", "/file-y")];
     Directories := [("x", "/dir-x")] |}.

(** The specs of arm (lines 74-77 and 80-83) and of arm64 (lines 88-91
    and 94-97). *)
Definition spec_kernel_arm : EnvVar :=
  {| Template := "{{.Files.zImage}}";
     Files := [("zImage", "/zImage")];
     Directories := [] |}.

Definition spec_qemu_arm : EnvVar :=
  {| Template := "{{.Files.qemu}}/bin/qemu-system-arm -M virt,highmem=off -L {{.Files.qemu}}/pc-bios";
     Files := [];
     Directories := [("qemu", "/zqemu")] |}.

Definition spec_kernel_arm64 : EnvVar :=
  {| Template := "{{.Files.Image}}";
     Files := [("Image", "/Image")];
     Directories := [] |}.

Definition spec_qemu_arm64 : EnvVar :=
  {| Template := "{{.Files.qemu}}/bin/qemu-system-aarch64 -machine virt -cpu max -m 1G -L {{.Files.qemu}}/pc-bios";
     Files := [];
     Directories := [("qemu", "/zqemu")] |}.

(** An arm host, and an amd64 host asked for arm64. *)
Definition host_arm : Host :=
  {| environ := [("HOME", "/root")];
     GOARCH := "arm";
     os_Args0 := "runvmtest";
     keepArtifacts := false;
     flag_Args := ["go"; "test"];
     dagger_Connect := None;
     os_MkdirTemp := inl "12";
     os_Getwd := inl "/src";
     dagger_Export := (true, None);
     cmd_Run := None |}.

Definition host_arm64_override : Host :=
  {| environ := [("VMTEST_ARCH", "arm64")];
     GOARCH := "amd64";
     os_Args0 := "runvmtest";
     keepArtifacts := false;
     flag_Args := ["go"; "test"];
     dagger_Connect := None;
     os_MkdirTemp := inl "12";
     os_Getwd := inl "/src";
     dagger_Export := (true, None);
     cmd_Run := None |}.

(** Evaluates the template of a spec of the table over its data. *)
Ltac render_table :=
  unfold render; cbn [Template];
  match goal with
  | |- context [template.Parse ?t] =>
      let r := eval vm_compute in (template.Parse t) in
      change (template.Parse t) with r
  end;
  unfold template_data, stage;
  cbn [fold_left Files Directories stage_file stage_directory fst snd];
  cbn [template.Execute template.eval_field];
  rewrite ?decide_True by done;
  rewrite ?lookup_insert_eq;
  cbn [mbind result_bind].

(** ** Evaluations of the model on concrete inputs *)

Example defaultConfig_amd64 : defaultConfig [] "amd64" = config_amd64.
Proof. vm_compute. reflexivity. Qed.

Example defaultConfig_override :
  defaultConfig [("VMTEST_ARCH", "arm")] "amd64" = config_arm.
Proof. vm_compute. reflexivity. Qed.

Example defaultConfig_unknown : defaultConfig [] "riscv64" = [].
Proof. vm_compute. reflexivity. Qed.

Example Clean_examples :
  filepath.Clean "a//b/./c/.." = "a/b" /\ filepath.Clean "/../a" = "/a" /\
  filepath.Clean "../../a/../.." = "../../.." /\ filepath.Clean "/" = "/" /\ filepath.Clean "./" = "." /\
  filepath.Clean "a/.." = "." /\ filepath.Clean "/home/u/./ci-testing12" = "/home/u/ci-testing12".
Proof. vm_compute. repeat split. Qed.

Example Join_examples :
  filepath.Join "/home/u/ci-testing12" "/bzImage" = "/home/u/ci-testing12/bzImage" /\
  filepath.Join "/" "/bzImage" = "/bzImage" /\ filepath.Join "" "a/" = "a".
Proof. vm_compute. repeat split. Qed.

Example Abs_example :
  filepath.Abs (inl "/home/u") "./ci-testing12" = inl "/home/u/ci-testing12".
Proof. vm_compute. reflexivity. Qed.

Example Parse_kernel :
  template.Parse "{{.Files.bzImage}}" = Ok [template.TextNode ""; template.FieldNode ["Files"; "bzImage"]; template.TextNode ""].
Proof. vm_compute. reflexivity. Qed.

Example Parse_spaces :
  template.Parse "a {{ .Files.x }}b" = Ok [template.TextNode "a "; template.FieldNode ["Files"; "x"]; template.TextNode "b"].
Proof. vm_compute. reflexivity. Qed.

Example Parse_unclosed : template.Parse "{{.Files.bzImage" = Err "unclosed action".
Proof. vm_compute. reflexivity. Qed.

Example Parse_empty_action : template.Parse "x{{ }}" = Err "missing value for command".
Proof. vm_compute. reflexivity. Qed.

Example Parse_other : template.Parse "{{if .Files.a}}x{{end}}{{" = Unmodelled.
Proof. vm_compute. reflexivity. Qed.

Example Execute_missing_key :
  (ns ← template.Parse "{{.Files.nope}}!"; template.Execute ns {["bzImage" := "/t/bzImage"]})
  = Ok "<no value>!".
Proof. vm_compute. reflexivity. Qed.

Example Execute_no_field :
  (ns ← template.Parse "{{.Dirs.qemu}}"; template.Execute ns ∅)
  = Err "can't evaluate field Dirs in type struct { Files map[string]string }".
Proof. vm_compute. reflexivity. Qed.

Example run_amd64 :
  run host_amd64 =
  (Returns None,
   [ Connect;
     MkdirTempCall "." "ci-testing";
     Export [ WithFile "/bzImage" "ghcr.io/hugelgupf/vmtest/kernel-amd64:main" "/bzImage";
              WithDirectory "/zqemu" "ghcr.io/hugelgupf/vmtest/qemu:main" "/zqemu" ]
            "./ci-testing4021";
     Exec "echo" ["hi"]
       [ "HOME=/home/u"; "PATH=/usr/bin";
         "VMTEST_KERNEL=/home/u/vmtest/ci-testing4021/bzImage";
         "VMTEST_QEMU=/home/u/vmtest/ci-testing4021/zqemu/bin/qemu-system-x86_64 -L /home/u/vmtest/ci-testing4021/zqemu/pc-bios -m 1G" ];
     RemoveAll "./ci-testing4021";
     Close ]).
Proof. vm_compute. reflexivity. Qed.

(** ** Configuration resolution *)

Lemma configs_lookup (arch : string) :
  configs !! arch =
  if decide (arch = "amd64") then Some config_amd64
  else if decide (arch = "arm") then Some config_arm
  else if decide (arch = "arm64") then Some config_arm64
  else None.
Proof.
  unfold configs.
  repeat case_decide; subst; simplify_map_eq; done.
Qed.

(** C7: [defaultConfig] returns the entry of the table for the value of
    VMTEST_ARCH when the table has one, otherwise the entry for the host's
    architecture when the table has one, otherwise the empty configuration.
    It is a total function into configurations: an unknown architecture is
    answered with the empty configuration, never with an error.  The
    table has exactly the keys amd64, arm and arm64. *)
Theorem defaultConfig_resolution (env : list (string * string)) (goarch : string) :
  (∀ c, configs !! os.Getenv env "VMTEST_ARCH" = Some c →
        defaultConfig env goarch = c) ∧
  (∀ c, configs !! os.Getenv env "VMTEST_ARCH" = None →
        configs !! goarch = Some c → defaultConfig env goarch = c) ∧
  (configs !! os.Getenv env "VMTEST_ARCH" = None →
   configs !! goarch = None → defaultConfig env goarch = []) ∧
  (∀ arch, is_Some (configs !! arch) ↔ arch ∈ ["amd64"; "arm"; "arm64"]).
Proof.
  unfold defaultConfig. repeat split.
  - intros c ->. done.
  - intros c -> ->. done.
  - intros -> ->. done.
  - rewrite configs_lookup, !elem_of_cons, elem_of_nil. intros Hsome.
    repeat case_decide; try tauto. by destruct Hsome.
  - rewrite configs_lookup, !elem_of_cons, elem_of_nil. intros Hin.
    repeat case_decide; eauto. tauto.
Qed.

Lemma defaultConfig_resolution_witness :
  defaultConfig [("VMTEST_ARCH", "arm64")] "amd64" = config_arm64 ∧
  defaultConfig [("VMTEST_ARCH", "sparc")] "arm" = config_arm ∧
  defaultConfig [] "riscv64" = [].
Proof.
  split; [|split].
  - apply (proj1 (defaultConfig_resolution [("VMTEST_ARCH", "arm64")] "amd64")).
    vm_compute. reflexivity.
  - apply (proj1 (proj2 (defaultConfig_resolution [("VMTEST_ARCH", "sparc")] "arm")));
      vm_compute; reflexivity.
  - apply (proj1 (proj2 (proj2 (defaultConfig_resolution [] "riscv64"))));
      vm_compute; reflexivity.
Defined.

(** ** Argument validation *)

(** C3 (the code at the input that contradicts the claim): with exactly one
    positional argument, the command alone, [run] returns the usage error
    and does nothing else. *)
Theorem run_single_command_rejected (h : Host) (command : string) :
  flag_Args h = [command] →
  run h = (Returns (Some ("too few arguments: usage: `" +:+ os_Args0 h
                          +:+ " -- ./test-to-run`")), []).
Proof.
  intros Hargs. unfold run. rewrite Hargs. reflexivity.
Qed.

Lemma run_single_command_rejected_witness :
  run host_single_command =
  (Returns (Some "too few arguments: usage: `runvmtest -- ./test-to-run`"), []).
Proof.
  apply (run_single_command_rejected host_single_command "./test-to-run").
  reflexivity.
Defined.

(** Validation fails exactly below two positional arguments. *)
Lemma run_usage_error_iff (h : Host) :
  run h = (Returns (Some ("too few arguments: usage: `" +:+ os_Args0 h
                          +:+ " -- ./test-to-run`")), [])
  ↔ length (flag_Args h) < 2.
Proof.
  unfold run. case_decide as Hlen; simpl.
  - tauto.
  - split; [|lia]. destruct (dagger_Connect h); simpl; discriminate.
Qed.

(** Past validation and the connection, [run] is [runNatively] on the
    resolved configuration, between [Connect] and the deferred [Close]. *)
Lemma run_delegates (h : Host) :
  (2 ≤ length (flag_Args h))%nat → dagger_Connect h = None →
  run h =
  ((runNatively h (defaultConfig (environ h) (GOARCH h)) (flag_Args h)).1,
   Connect
   :: (runNatively h (defaultConfig (environ h) (GOARCH h)) (flag_Args h)).2
   ++ [Close]).
Proof.
  intros Hlen Hconn. unfold run. rewrite Hconn.
  case_decide; [lia|done].
Qed.

(** The guard is all that stands in the way of a single command: the rest
    of the program runs it. *)
Example single_command_runs_past_the_guard :
  runNatively host_single_command
    (defaultConfig (environ host_single_command) (GOARCH host_single_command))
    (flag_Args host_single_command)
  = (Returns None,
     [ MkdirTempCall "." "ci-testing";
       Export [ WithFile "/bzImage" "ghcr.io/hugelgupf/vmtest/kernel-amd64:main" "/bzImage";
                WithDirectory "/zqemu" "ghcr.io/hugelgupf/vmtest/qemu:main" "/zqemu" ]
              "./ci-testing4021";
       Exec "./test-to-run" []
         [ "HOME=/home/u";
           "VMTEST_KERNEL=/home/u/vmtest/ci-testing4021/bzImage";
           "VMTEST_QEMU=/home/u/vmtest/ci-testing4021/zqemu/bin/qemu-system-x86_64 -L /home/u/vmtest/ci-testing4021/zqemu/pc-bios -m 1G" ];
       RemoveAll "./ci-testing4021" ]).
Proof. vm_compute. reflexivity. Qed.

(** ** runNatively, path by path *)

Lemma MkdirTemp_ci_testing (random : string) :
  os.MkdirTemp (inl random) "." "ci-testing" = inl ("./ci-testing" +:+ random).
Proof. reflexivity. Qed.

(** Everything before [cmd.Run] succeeded: the rest of the execution. *)
Lemma runNatively_reaches_command (h : Host) (config : TestEnvConfig)
    (name : string) (rest : list string) (random tmp : string) (st : loop_state) :
  os_MkdirTemp h = inl random →
  filepath.Abs (os_Getwd h) ("./ci-testing" +:+ random) = inl tmp →
  range_config (environ h) tmp config start = Ok st →
  dagger_Export h = (true, None) →
  runNatively h config (name :: rest) =
  (Returns (wrap_run_error (cmd_Run h)),
   [ MkdirTempCall "." "ci-testing";
     Export (base st) ("./ci-testing" +:+ random);
     Exec name rest (os.Environ (environ h) ++ envv st) ]
   ++ (if keepArtifacts h then print_assignments (envv st) else [])
   ++ (if keepArtifacts h then [] else [RemoveAll ("./ci-testing" +:+ random)])).
Proof.
  intros Hmk Habs Hloop Hexp. unfold runNatively.
  rewrite Hmk, MkdirTemp_ci_testing, Habs. rewrite Hloop, Hexp.
  destruct (cmd_Run h); reflexivity.
Qed.

(** The command was run only if everything before it succeeded. *)
Lemma runNatively_executed_inv (h : Host) (config : TestEnvConfig)
    (args : list string) (name : string) (cargs cenv : list string) :
  Exec name cargs cenv ∈ (runNatively h config args).2 →
  ∃ random tmp st,
    os_MkdirTemp h = inl random ∧
    filepath.Abs (os_Getwd h) ("./ci-testing" +:+ random) = inl tmp ∧
    range_config (environ h) tmp config start = Ok st ∧
    dagger_Export h = (true, None) ∧
    args = name :: cargs ∧
    cenv = os.Environ (environ h) ++ envv st.
Proof.
  unfold runNatively.
  destruct (os_MkdirTemp h) as [random|e] eqn:Hmk;
    rewrite ?MkdirTemp_ci_testing; [|in_trace].
  destruct (filepath.Abs (os_Getwd h) ("./ci-testing" +:+ random)) as [tmp|e] eqn:Habs;
    [|destruct (keepArtifacts h); in_trace].
  destruct (range_config (environ h) tmp config start) as [st|e|] eqn:Hloop;
    [|destruct (keepArtifacts h); in_trace|in_trace].
  destruct (dagger_Export h) as [[|] [e|]] eqn:Hexp;
    try (destruct (keepArtifacts h); in_trace).
  destruct args as [|name' rest];
    [destruct (keepArtifacts h); in_trace|].
  intros Hin. exists random, tmp, st.
  assert (Exec name cargs cenv = Exec name' rest (os.Environ (environ h) ++ envv st))
    as Heq.
  { destruct (cmd_Run h), (keepArtifacts h); revert Hin; in_trace. }
  by simplify_eq.
Qed.


(** ** Unsupported architectures *)

(** C4 (counterexample): on riscv64, which the table does not have, with
    neither VMTEST_ARCH nor VMTEST_KERNEL nor VMTEST_QEMU set, [run] stages
    nothing, executes the command with the ambient environment alone and
    returns no error. *)
Lemma unsupported_architecture_runs_command :
  configs !! GOARCH host_riscv64 = None ∧
  os.Getenv (environ host_riscv64) "VMTEST_ARCH" = "" ∧
  os.Getenv (environ host_riscv64) "VMTEST_KERNEL" = "" ∧
  os.Getenv (environ host_riscv64) "VMTEST_QEMU" = "" ∧
  run host_riscv64 =
  (Returns None,
   [ Connect; MkdirTempCall "." "ci-testing"; Export [] "./ci-testing77";
     Exec "echo" ["hi"] ["HOME=/home/u"]; RemoveAll "./ci-testing77"; Close ]).
Proof. vm_compute. repeat split. Qed.

(** C4 (amended): when neither VMTEST_ARCH nor the host's architecture has
    an entry in the table, the configuration is empty; if the arguments,
    the connection, the temporary directory and the export are in order,
    [run] exports an empty container, executes the command with exactly the
    ambient environment and returns what the command returns. *)
Theorem run_unsupported_architecture (h : Host) (name : string)
    (rest : list string) (random tmp : string) :
  configs !! os.Getenv (environ h) "VMTEST_ARCH" = None →
  configs !! GOARCH h = None →
  flag_Args h = name :: rest →
  rest ≠ [] →
  dagger_Connect h = None →
  os_MkdirTemp h = inl random →
  filepath.Abs (os_Getwd h) ("./ci-testing" +:+ random) = inl tmp →
  dagger_Export h = (true, None) →
  defaultConfig (environ h) (GOARCH h) = [] ∧
  run h =
  (Returns (wrap_run_error (cmd_Run h)),
   [ Connect; MkdirTempCall "." "ci-testing";
     Export [] ("./ci-testing" +:+ random);
     Exec name rest (os.Environ (environ h)) ]
   ++ (if keepArtifacts h then print_assignments [] else [])
   ++ (if keepArtifacts h then [] else [RemoveAll ("./ci-testing" +:+ random)])
   ++ [Close]).
Proof.
  intros Harch Hgo Hargs Hrest Hconn Hmk Habs Hexp.
  assert (defaultConfig (environ h) (GOARCH h) = []) as Hcfg.
  { unfold defaultConfig. by rewrite Harch, Hgo. }
  split; [done|].
  unfold run. rewrite Hcfg, Hargs, Hconn.
  destruct rest as [|arg rest]; [done|].
  case_decide as Hlen; [simpl in Hlen; lia|].
  rewrite (runNatively_reaches_command h [] name (arg :: rest) random tmp start)
    by done.
  cbn [fst snd base envv start]. rewrite app_nil_r.
  by rewrite <- !app_assoc.
Qed.

Lemma run_unsupported_architecture_witness :
  defaultConfig (environ host_riscv64) (GOARCH host_riscv64) = [] ∧
  run host_riscv64 =
  (Returns None,
   [ Connect; MkdirTempCall "." "ci-testing"; Export [] "./ci-testing77";
     Exec "echo" ["hi"] ["HOME=/home/u"]; RemoveAll "./ci-testing77"; Close ]).
Proof.
  apply (run_unsupported_architecture host_riscv64 "echo" ["hi"] "77"
           "/home/u/vmtest/ci-testing77"); vm_compute; congruence.
Defined.

(** ** The environment of the command *)

(** C8: the environment handed to the command is the process environment,
    entry by entry and in place, followed by the rendered assignments: an
    appended assignment stands after every entry of the process
    environment, also after one of the same name. *)
Theorem child_environment_appends (h : Host) (config : TestEnvConfig)
    (args : list string) (name : string) (cargs cenv : list string) :
  Exec name cargs cenv ∈ (runNatively h config args).2 →
  ∃ tmp st,
    range_config (environ h) tmp config start = Ok st ∧
    cenv = os.Environ (environ h) ++ envv st ∧
    (∀ i s, os.Environ (environ h) !! i = Some s → cenv !! i = Some s) ∧
    (∀ j s, envv st !! j = Some s →
            cenv !! (length (os.Environ (environ h)) + j) = Some s) ∧
    (∀ i j a b, os.Environ (environ h) !! i = Some a → envv st !! j = Some b →
                i < length (os.Environ (environ h)) + j).
Proof.
  intros Hin.
  destruct (runNatively_executed_inv _ _ _ _ _ _ Hin)
    as (random & tmp & st & _ & _ & Hloop & _ & _ & ->).
  exists tmp, st. repeat split; [done|..].
  - intros i s Hi. by apply lookup_app_l_Some.
  - intros j s Hj. by rewrite lookup_app_r, Nat.add_comm, Nat.add_sub by lia.
  - intros i j a b Hi _. apply lookup_lt_Some in Hi. lia.
Qed.

Lemma child_environment_appends_witness :
  ∃ tmp st,
    range_config (environ host_amd64) tmp config_amd64 start = Ok st ∧
    [ "HOME=/home/u"; "PATH=/usr/bin";
      "VMTEST_KERNEL=/home/u/vmtest/ci-testing4021/bzImage";
      "VMTEST_QEMU=/home/u/vmtest/ci-testing4021/zqemu/bin/qemu-system-x86_64 -L /home/u/vmtest/ci-testing4021/zqemu/pc-bios -m 1G" ]
    = os.Environ (environ host_amd64) ++ envv st.
Proof.
  destruct (child_environment_appends host_amd64 config_amd64 ["echo"; "hi"]
              "echo" ["hi"]
              [ "HOME=/home/u"; "PATH=/usr/bin";
                "VMTEST_KERNEL=/home/u/vmtest/ci-testing4021/bzImage";
                "VMTEST_QEMU=/home/u/vmtest/ci-testing4021/zqemu/bin/qemu-system-x86_64 -L /home/u/vmtest/ci-testing4021/zqemu/pc-bios -m 1G" ])
    as (tmp & st & Hloop & Henv & _).
  - vm_compute. do 2 right. left.
  - exists tmp, st. split; assumption.
Defined.

(** ** The deferred print *)

(** C9: with -keep-artifacts, once the command is built and the print is
    registered (everything before [cmd.Run] succeeded), the assignments are
    printed right after the command, whatever [cmd.Run] returns: also when
    it returns an error, which [run] then returns wrapped. *)
Theorem assignments_printed_on_every_return (h : Host) (config : TestEnvConfig)
    (name : string) (rest : list string) (random tmp : string) (st : loop_state) :
  keepArtifacts h = true →
  os_MkdirTemp h = inl random →
  filepath.Abs (os_Getwd h) ("./ci-testing" +:+ random) = inl tmp →
  range_config (environ h) tmp config start = Ok st →
  dagger_Export h = (true, None) →
  (runNatively h config (name :: rest)).1 = Returns (wrap_run_error (cmd_Run h)) ∧
  (∀ e, cmd_Run h = Some e →
        (runNatively h config (name :: rest)).1
        = Returns (Some ("failed execution: " +:+ e))) ∧
  ∃ before,
    (runNatively h config (name :: rest)).2 =
    before ++ Exec name rest (os.Environ (environ h) ++ envv st)
           :: print_assignments (envv st) ∧
    ¬ executed before.
Proof.
  intros Hkeep Hmk Habs Hloop Hexp.
  rewrite (runNatively_reaches_command h config name rest random tmp st) by done.
  rewrite Hkeep. cbn [fst snd]. repeat split.
  - by intros e ->.
  - exists [MkdirTempCall "." "ci-testing"; Export (base st) ("./ci-testing" +:+ random)].
    split; [by rewrite app_nil_r|].
    intros (n & a & e & Hin). revert Hin. in_trace.
Qed.

Lemma assignments_printed_on_every_return_witness :
  (runNatively host_keep_failing config_amd64 ["go"; "test"; "./..."]).1
  = Returns (Some "failed execution: exit status 1") ∧
  Stdout ("VMTEST_KERNEL=/src/ci-testing9/bzImage ..." +:+ nl)
  ∈ (runNatively host_keep_failing config_amd64 ["go"; "test"; "./..."]).2.
Proof.
  destruct (assignments_printed_on_every_return host_keep_failing config_amd64
              "go" ["test"; "./..."] "9" "/src/ci-testing9"
              {| base := [WithFile "/bzImage" "ghcr.io/hugelgupf/vmtest/kernel-amd64:main" "/bzImage"];
                 envv := ["VMTEST_KERNEL=/src/ci-testing9/bzImage"] |})
    as (_ & Herr & before & Htrace & _); try (vm_compute; reflexivity).
  split.
  - apply Herr. reflexivity.
  - rewrite Htrace. rewrite elem_of_app. right.
    do 2 right. left.
Defined.

(** ** The loop as one pass over the variables it does not skip *)

Section loop_facts.
Context (env : list (string * string)) (tmp : string).

Lemma stage_file_fold (c : string) (fs : list (string * string))
    (st : list stage_op * gmap string string) :
  fold_left (stage_file tmp c) fs st =
  (st.1 ++ map (λ e : string * string, WithFile e.2 c e.2) fs,
   fold_left (λ m (e : string * string), <[e.1 := filepath.Join tmp e.2]> m) fs st.2).
Proof.
  revert st. induction fs as [|[t f] fs IH]; intros [b m]; simpl.
  - by rewrite app_nil_r.
  - rewrite IH. simpl. by rewrite <- app_assoc.
Qed.

Lemma stage_directory_fold (c : string) (ds : list (string * string))
    (st : list stage_op * gmap string string) :
  fold_left (stage_directory tmp c) ds st =
  (st.1 ++ map (λ e : string * string, WithDirectory e.2 c e.2) ds,
   fold_left (λ m (e : string * string), <[e.1 := filepath.Join tmp e.2]> m) ds st.2).
Proof.
  revert st. induction ds as [|[t d] ds IH]; intros [b m]; simpl.
  - by rewrite app_nil_r.
  - rewrite IH. simpl. by rewrite <- app_assoc.
Qed.

Lemma stage_eq (c : string) (varConf : EnvVar) (b : list stage_op) :
  stage tmp c varConf b = (b ++ stage_ops c varConf, template_data tmp varConf).
Proof.
  unfold template_data, stage, stage_ops.
  rewrite !stage_directory_fold, !stage_file_fold. simpl.
  by rewrite app_assoc.
Qed.

Lemma range_var_materialize (c : string) (st : loop_state) (v : string)
    (varConf : EnvVar) :
  range_var env tmp c st (v, varConf) =
  if decide (os.Getenv env v = "") then materialize tmp st (c, v, varConf)
  else Ok st.
Proof.
  unfold range_var, materialize. rewrite stage_eq. simpl.
  destruct (decide (os.Getenv env v = "")) as [Hunset|Hset].
  - rewrite decide_False by (intros Hne; by apply Hne). done.
  - by rewrite decide_True.
Qed.

Lemma range_envs_materialize (c : string) (envs : list (string * EnvVar))
    (st : loop_state) :
  range_envs env tmp c envs st =
  materialize_all tmp
    (filter (λ x : string * string * EnvVar, os.Getenv env x.1.2 = "")
       ((λ e : string * EnvVar, (c, e.1, e.2)) <$> envs)) st.
Proof.
  revert st. induction envs as [|[v varConf] envs IH]; intros st; [done|].
  cbn [range_envs]. rewrite range_var_materialize, fmap_cons, filter_cons.
  cbn [fst snd]. destruct (decide (os.Getenv env v = "")).
  - cbn [materialize_all].
    destruct (materialize tmp st (c, v, varConf)); cbn; auto.
  - cbn. apply IH.
Qed.

Lemma materialize_all_app (l1 l2 : list (string * string * EnvVar))
    (st : loop_state) :
  materialize_all tmp (l1 ++ l2) st =
  materialize_all tmp l1 st ≫= materialize_all tmp l2.
Proof.
  revert st. induction l1 as [|x l1 IH]; intros st; [done|].
  cbn [app materialize_all].
  destruct (materialize tmp st x); cbn; auto.
Qed.

Lemma range_config_survivors (config : TestEnvConfig) (st : loop_state) :
  range_config env tmp config st = materialize_all tmp (survivors env config) st.
Proof.
  revert st. induction config as [|[c envs] config IH]; intros st; [done|].
  unfold survivors. rewrite bind_cons, materialize_all_app.
  cbn [range_config fst snd]. rewrite range_envs_materialize.
  destruct (materialize_all tmp _ st); cbn; auto.
Qed.

Lemma elem_of_survivors (config : TestEnvConfig) (c v : string)
    (varConf : EnvVar) :
  (c, v, varConf) ∈ survivors env config ↔
  ∃ envs, (c, envs) ∈ config ∧ (v, varConf) ∈ envs ∧ os.Getenv env v = "".
Proof.
  unfold survivors. rewrite list_elem_of_bind. split.
  - intros ([c' envs] & Hin & Hce).
    apply list_elem_of_filter in Hin as [Hunset Hin].
    apply list_elem_of_fmap in Hin as ([v' varConf'] & Heq & Hin).
    simpl in *. simplify_eq. eauto.
  - intros (envs & Hce & Hin & Hunset). exists (c, envs). split; [|done].
    apply list_elem_of_filter. split; [done|].
    apply list_elem_of_fmap. by exists (v, varConf).
Qed.

(** A completed pass: everything staged, one assignment per variable. *)
Lemma materialize_all_Ok (l : list (string * string * EnvVar))
    (st st' : loop_state) :
  materialize_all tmp l st = Ok st' →
  base st' = base st ++ (l ≫= λ x, stage_ops x.1.1 x.2) ∧
  ∃ values,
    Forall2 (λ x s, render x.1.2 x.2 (template_data tmp x.2) = Ok s) l values ∧
    envv st' = envv st
               ++ zip_with (λ (x : string * string * EnvVar) s,
                              x.1.2 +:+ "=" +:+ s) l values.
Proof.
  revert st. induction l as [|x l IH]; intros st Hall.
  - cbn in Hall. simplify_eq.
    split; [cbn; by rewrite app_nil_r|].
    exists []. split; [constructor|cbn; by rewrite app_nil_r].
  - cbn [materialize_all] in Hall. unfold materialize in Hall.
    destruct (render x.1.2 x.2 (template_data tmp x.2)) as [s|e|] eqn:Hr;
      cbn in Hall; try discriminate.
    apply IH in Hall as (Hbase & values & Hvalues & Henvv).
    cbn [base envv] in Hbase, Henvv.
    rewrite bind_cons, Hbase, Henvv, <- !app_assoc. split; [done|].
    exists (s :: values). split; [by constructor|done].
Qed.

(** An aborted pass: the error is the one of a variable's template. *)
Lemma materialize_all_Err (l : list (string * string * EnvVar))
    (st : loop_state) (e : string) :
  materialize_all tmp l st = Err e →
  ∃ x, x ∈ l ∧ render x.1.2 x.2 (template_data tmp x.2) = Err e.
Proof.
  revert st. induction l as [|x l IH]; intros st Hall; [done|].
  cbn [materialize_all] in Hall. unfold materialize in Hall.
  destruct (render x.1.2 x.2 (template_data tmp x.2)) as [s|e'|] eqn:Hr;
    cbn in Hall; try discriminate.
  - apply IH in Hall as (y & Hy & Hry). exists y. split; [by right|done].
  - simplify_eq. exists x. split; [by left|done].
Qed.

(** A variable whose template fails keeps the pass from completing. *)
Lemma materialize_all_not_Ok (l : list (string * string * EnvVar))
    (st st' : loop_state) (x : string * string * EnvVar) (e : string) :
  x ∈ l → render x.1.2 x.2 (template_data tmp x.2) = Err e →
  materialize_all tmp l st ≠ Ok st'.
Proof.
  intros Hx Hr Hall. apply materialize_all_Ok in Hall as (_ & values & Hv & _).
  apply list_elem_of_lookup in Hx as [i Hi].
  destruct (Forall2_lookup_l _ _ _ _ _ Hv Hi) as (s & _ & Hs). congruence.
Qed.
End loop_facts.

Lemma render_Err_names_variable (v : string) (varConf : EnvVar)
    (files : gmap string string) (e : string) :
  render v varConf files = Err e → names_variable e v.
Proof.
  unfold render, names_variable.
  destruct (template.Parse (Template varConf)) as [nodes|e'|]; [|intros [= <-]; eauto|done].
  destruct (template.Execute nodes files) as [s|e'|]; [done|intros [= <-]; eauto|done].
Qed.


(** ** Variables the caller has set *)

Lemma Getenv_elem_of (env : list (string * string)) (v : string) :
  os.Getenv env v ≠ "" → (v, os.Getenv env v) ∈ env.
Proof.
  induction env as [|[k x] env IH]; cbn; [done|].
  case_decide as Hk; intros Hne.
  - subst. by left.
  - right. by apply IH.
Qed.

Lemma survivors_without_var (env : list (string * string)) (v : string)
    (config : TestEnvConfig) :
  os.Getenv env v ≠ "" → survivors env (without_var v config) = survivors env config.
Proof.
  intros Hset. unfold survivors, without_var.
  induction config as [|[c envs] config IH]; [done|].
  rewrite fmap_cons, !bind_cons, IH. f_equal. cbn [fst snd]. clear IH.
  induction envs as [|[v' varConf] envs IH]; [done|].
  rewrite filter_cons. cbn [fst]. destruct (decide (v' ≠ v)) as [Hne|Heq].
  - rewrite !fmap_cons, !filter_cons. cbn [fst snd].
    case_decide; by rewrite IH.
  - assert (v' = v) as -> by (by destruct (decide (v' = v))).
    rewrite fmap_cons, (filter_cons _ (_, v, _)). cbn [fst snd].
    by rewrite decide_False.
Qed.

Lemma runNatively_same_loop (h : Host) (config config' : TestEnvConfig)
    (args : list string) :
  (∀ tmp, range_config (environ h) tmp config start
          = range_config (environ h) tmp config' start) →
  runNatively h config args = runNatively h config' args.
Proof.
  intros Hsame. unfold runNatively.
  destruct (os.MkdirTemp (os_MkdirTemp h) "." "ci-testing") as [tmpDir|e]; [|done].
  destruct (filepath.Abs (os_Getwd h) tmpDir) as [tmp|e]; [|done].
  by rewrite Hsame.
Qed.

(** C1: when the variable [v] of a spec has a non-empty value in the
    process environment, the execution is, in outcome and in every effect
    (what is staged and exported, the assignments, the command and its
    environment), the one of the configuration without the specs of [v];
    and whenever the command is executed, its environment contains the
    entry of [v] with the ambient value, among the entries of the process
    environment. *)
Theorem caller_override_skips_spec (h : Host) (config : TestEnvConfig)
    (args : list string) (c : string) (envs : list (string * EnvVar))
    (v : string) (varConf : EnvVar) :
  (c, envs) ∈ config → (v, varConf) ∈ envs →
  os.Getenv (environ h) v ≠ "" →
  runNatively h config args = runNatively h (without_var v config) args ∧
  (∀ c' envs', (c', envs') ∈ without_var v config → ∀ spec, (v, spec) ∉ envs') ∧
  (∀ name cargs cenv,
     Exec name cargs cenv ∈ (runNatively h config args).2 →
     ∃ tmp st,
       range_config (environ h) tmp (without_var v config) start = Ok st ∧
       cenv = os.Environ (environ h) ++ envv st ∧
       v +:+ "=" +:+ os.Getenv (environ h) v ∈ os.Environ (environ h)).
Proof.
  intros _ _ Hset.
  assert (∀ tmp, range_config (environ h) tmp config start
                 = range_config (environ h) tmp (without_var v config) start)
    as Hsame.
  { intros tmp. by rewrite !range_config_survivors, survivors_without_var. }
  split; [by apply runNatively_same_loop|]. split.
  - intros c' envs' Hin spec Hspec. unfold without_var in Hin.
    apply list_elem_of_fmap in Hin as ([c0 envs0] & Heq & _). simplify_eq.
    cbn in Hspec. apply list_elem_of_filter in Hspec as [Hne _]. by apply Hne.
  - intros name cargs cenv Hin.
    destruct (runNatively_executed_inv _ _ _ _ _ _ Hin)
      as (random & tmp & st & _ & _ & Hloop & _ & _ & ->).
    exists tmp, st. rewrite <- Hsame. repeat split; [done|].
    apply (list_elem_of_fmap_2 os.assignment _ (v, os.Getenv (environ h) v)).
    by apply Getenv_elem_of.
Qed.

Lemma caller_override_skips_spec_witness :
  runNatively host_override config_amd64 ["go"; "test"]
  = (Returns None,
     [ MkdirTempCall "." "ci-testing";
       Export [WithFile "/bzImage" "ghcr.io/hugelgupf/vmtest/kernel-amd64:main" "/bzImage"]
              "./ci-testing5";
       Exec "go" ["test"]
         [ "VMTEST_QEMU=qemu-system-x86_64 -enable-kvm";
           "VMTEST_KERNEL=/w/ci-testing5/bzImage" ];
       RemoveAll "./ci-testing5" ]).
Proof.
  rewrite (proj1 (caller_override_skips_spec host_override config_amd64
                    ["go"; "test"] "ghcr.io/hugelgupf/vmtest/qemu:main"
                    [("VMTEST_QEMU",
                      {| Template := "{{.Files.qemu}}/bin/qemu-system-x86_64 -L {{.Files.qemu}}/pc-bios -m 1G";
                         Files := [];
                         Directories := [("qemu", "/zqemu")] |})]
                    "VMTEST_QEMU"
                    {| Template := "{{.Files.qemu}}/bin/qemu-system-x86_64 -L {{.Files.qemu}}/pc-bios -m 1G";
                       Files := [];
                       Directories := [("qemu", "/zqemu")] |}
                    ltac:(vm_compute; right; left)
                    ltac:(left)
                    ltac:(vm_compute; discriminate))).
  vm_compute. reflexivity.
Defined.


(** ** Template failures *)

(** C5 (counterexample): a template that substitutes a name the spec does
    not declare is no error: the variable is set to [<no value>] and the
    command is executed. *)
Lemma undeclared_name_is_not_an_error :
  render "VMTEST_KERNEL"
    {| Template := "{{.Files.kernel}}"; Files := [("bzImage", "/bzImage")];
       Directories := [] |}
    (template_data "/home/u/vmtest/ci-testing4021"
       {| Template := "{{.Files.kernel}}"; Files := [("bzImage", "/bzImage")];
          Directories := [] |})
  = Ok "<no value>" ∧
  runNatively host_amd64 config_undeclared ["echo"; "hi"] =
  (Returns None,
   [ MkdirTempCall "." "ci-testing";
     Export [WithFile "/bzImage" "ghcr.io/hugelgupf/vmtest/kernel-amd64:main" "/bzImage"]
            "./ci-testing4021";
     Exec "echo" ["hi"]
       ["HOME=/home/u"; "PATH=/usr/bin"; "VMTEST_KERNEL=<no value>"];
     RemoveAll "./ci-testing4021" ]).
Proof. vm_compute. split; reflexivity. Qed.

(** *** Template failures, whatever the library answers *)

Section with_engine_facts.
Context (E : Engine) (env : list (string * string)) (tmp : string).

Lemma render_with_Err (v : string) (varConf : EnvVar)
    (files : gmap string string) (e : string) :
  render_with E v varConf files = Err e ↔
  (∃ cause, engine_Parse E ("var-" +:+ v) (Template varConf) = inr cause ∧
            e = "invalid " +:+ v +:+ " template: " +:+ cause) ∨
  (∃ tmpl cause,
     engine_Parse E ("var-" +:+ v) (Template varConf) = inl tmpl ∧
     engine_Execute E tmpl files = inr cause ∧
     e = "failed to substitute " +:+ v +:+ " template variables: " +:+ cause).
Proof.
  unfold render_with.
  destruct (engine_Parse E ("var-" +:+ v) (Template varConf)) as [tmpl|cause].
  - destruct (engine_Execute E tmpl files) as [s|cause] eqn:Hexec.
    + split; [done|]. intros [(c & Hc & _)|(t & c & Ht & Hc & _)]; [done|].
      simplify_eq. congruence.
    + split.
      * intros [= <-]. right. by exists tmpl, cause.
      * intros [(c & Hc & _)|(t & c & Ht & Hc & ->)]; [done|].
        simplify_eq. congruence.
  - split.
    + intros [= <-]. left. by exists cause.
    + intros [(c & Hc & ->)|(t & c & Ht & _)]; [|done]. by simplify_eq.
Qed.

Lemma render_with_modelled (v : string) (varConf : EnvVar)
    (files : gmap string string) :
  render_with E v varConf files ≠ Unmodelled.
Proof.
  unfold render_with.
  destruct (engine_Parse E ("var-" +:+ v) (Template varConf)) as [tmpl|cause];
    [|done].
  by destruct (engine_Execute E tmpl files).
Qed.

Lemma range_var_with_cases (c : string) (st : loop_state) (v : string)
    (varConf : EnvVar) :
  range_var_with E env tmp c st (v, varConf) =
  if decide (os.Getenv env v = "") then
    s ← render_with E v varConf (template_data tmp varConf);
    Ok {| base := base st ++ stage_ops c varConf;
          envv := envv st ++ [v +:+ "=" +:+ s] |}
  else Ok st.
Proof.
  unfold range_var_with. rewrite stage_eq. cbn [fst snd].
  destruct (decide (os.Getenv env v = "")) as [Hunset|Hset].
  - rewrite decide_False by (intros Hne; by apply Hne). done.
  - by rewrite decide_True.
Qed.

(** The loop over the variables of a container: it completes, or it
    returns the error of a variable it did not skip. *)
Lemma range_envs_with_outcome (c : string) (envs : list (string * EnvVar))
    (st : loop_state) :
  match range_envs_with E env tmp c envs st with
  | Ok _ =>
      ∀ v varConf, (v, varConf) ∈ envs → os.Getenv env v = "" →
        ∃ s, render_with E v varConf (template_data tmp varConf) = Ok s
  | Err e =>
      ∃ v varConf, (v, varConf) ∈ envs ∧ os.Getenv env v = "" ∧
        render_with E v varConf (template_data tmp varConf) = Err e
  | Unmodelled => False
  end.
Proof.
  revert st. induction envs as [|[v varConf] envs IH]; intros st.
  - cbn. intros v varConf Hin. by inversion Hin.
  - cbn [range_envs_with]. rewrite range_var_with_cases.
    destruct (decide (os.Getenv env v = "")) as [Hunset|Hset].
    + destruct (render_with E v varConf (template_data tmp varConf))
        as [s|e|] eqn:Hr; cbn [mbind result_bind].
      * specialize (IH {| base := base st ++ stage_ops c varConf;
                          envv := envv st ++ [v +:+ "=" +:+ s] |}).
        destruct (range_envs_with E env tmp c envs _) as [st'|e|]; [| |done].
        -- intros v' varConf' [Heq|Hin]%elem_of_cons Hunset';
             [simplify_eq; eauto|by apply IH].
        -- destruct IH as (v' & varConf' & Hin & Hunset' & Hr').
           exists v', varConf'. split; [by right|done].
      * exists v, varConf. split; [by left|done].
      * by apply render_with_modelled in Hr.
    + cbn [mbind result_bind]. specialize (IH st).
      destruct (range_envs_with E env tmp c envs st) as [st'|e|]; [| |done].
      * intros v' varConf' [Heq|Hin]%elem_of_cons Hunset';
          [simplify_eq|by apply IH].
      * destruct IH as (v' & varConf' & Hin & Hunset' & Hr').
        exists v', varConf'. split; [by right|done].
Qed.

(** The whole loop: it completes, every variable it did not skip having
    rendered, or it returns the error of a variable it did not skip. *)
Lemma range_config_with_outcome (config : TestEnvConfig) (st : loop_state) :
  match range_config_with E env tmp config st with
  | Ok _ =>
      ∀ c envs v varConf,
        (c, envs) ∈ config → (v, varConf) ∈ envs → os.Getenv env v = "" →
        ∃ s, render_with E v varConf (template_data tmp varConf) = Ok s
  | Err e =>
      ∃ c envs v varConf,
        (c, envs) ∈ config ∧ (v, varConf) ∈ envs ∧ os.Getenv env v = "" ∧
        render_with E v varConf (template_data tmp varConf) = Err e
  | Unmodelled => False
  end.
Proof.
  revert st. induction config as [|[c envs] config IH]; intros st.
  - cbn. intros c envs v varConf Hin. by inversion Hin.
  - cbn [range_config_with].
    pose proof (range_envs_with_outcome c envs st) as Henvs.
    destruct (range_envs_with E env tmp c envs st) as [st1|e|];
      cbn [mbind result_bind]; [| |done].
    + specialize (IH st1).
      destruct (range_config_with E env tmp config st1) as [st2|e|]; [| |done].
      * intros c' envs' v varConf [Heq|Hin]%elem_of_cons Hv Hunset.
        -- simplify_eq. by eapply Henvs.
        -- by eapply IH.
      * destruct IH as (c' & envs' & v & varConf & Hin & Hrest).
        exists c', envs', v, varConf. split; [by right|done].
    + destruct Henvs as (v & varConf & Hin & Hrest).
      exists c, envs, v, varConf. split; [by left|done].
Qed.
End with_engine_facts.

(** The command was run only if the loop completed. *)
Lemma runNatively_with_executed_inv (E : Engine) (h : Host)
    (config : TestEnvConfig) (args : list string) :
  executed (runNatively_with E h config args).2 →
  ∃ random tmp st,
    os_MkdirTemp h = inl random ∧
    filepath.Abs (os_Getwd h) ("./ci-testing" +:+ random) = inl tmp ∧
    range_config_with E (environ h) tmp config start = Ok st.
Proof.
  intros (name & cargs & cenv & Hin). revert Hin. unfold runNatively_with.
  destruct (os_MkdirTemp h) as [random|e] eqn:Hmk;
    rewrite ?MkdirTemp_ci_testing; [|in_trace].
  destruct (filepath.Abs (os_Getwd h) ("./ci-testing" +:+ random))
    as [tmp|e] eqn:Habs; [|destruct (keepArtifacts h); in_trace].
  destruct (range_config_with E (environ h) tmp config start)
    as [st|e|] eqn:Hloop;
    [|destruct (keepArtifacts h); in_trace|in_trace].
  intros _. by exists random, tmp, st.
Qed.

(** With a library that answers as the model does on the templates of a
    configuration, the program is the one defined with the model. *)
Lemma runNatively_with_agrees (E : Engine) (h : Host) (config : TestEnvConfig)
    (args : list string) :
  (∀ tmp c envs v varConf,
     (c, envs) ∈ config → (v, varConf) ∈ envs →
     render_with E v varConf (template_data tmp varConf)
     = render v varConf (template_data tmp varConf)) →
  runNatively_with E h config args = runNatively h config args.
Proof.
  intros Hagree.
  assert (∀ tmp st, range_config_with E (environ h) tmp config st
                    = range_config (environ h) tmp config st) as Hloop.
  { intros tmp. induction config as [|[c envs] config IH]; intros st; [done|].
    cbn [range_config_with range_config].
    assert (∀ st, range_envs_with E (environ h) tmp c envs st
                  = range_envs (environ h) tmp c envs st) as ->.
    { assert (∀ v varConf, (v, varConf) ∈ envs →
                render_with E v varConf (template_data tmp varConf)
                = render v varConf (template_data tmp varConf)) as Hc.
      { intros v varConf Hv. eapply Hagree; [by left|done]. }
      clear IH Hagree. induction envs as [|[v varConf] envs IH]; intros st1;
        [done|].
      cbn [range_envs_with range_envs].
      rewrite range_var_with_cases, range_var_materialize.
      unfold materialize. cbn [fst snd].
      rewrite Hc by (by left).
      destruct (decide (os.Getenv (environ h) v = "")).
      - destruct (render v varConf (template_data tmp varConf)) as [s|err|];
          cbn [mbind result_bind]; [|done..].
        apply IH. intros v' varConf' Hv'. apply Hc. by right.
      - apply IH. intros v' varConf' Hv'. apply Hc. by right. }
    destruct (range_envs (environ h) tmp c envs st) as [st1|err|];
      cbn [mbind result_bind]; [|done..].
    apply IH. intros tmp' c' envs' v varConf Hc' Hv.
    eapply Hagree; [by right|done]. }
  unfold runNatively_with, runNatively.
  destruct (os.MkdirTemp (os_MkdirTemp h) "." "ci-testing") as [tmpDir|e];
    [|done].
  destruct (filepath.Abs (os_Getwd h) tmpDir) as [tmp|e]; [|done].
  by rewrite Hloop.
Qed.

(** C5 (amended): whatever [text/template] answers: if the template of a
    spec that is not skipped fails to parse, or parses and fails in
    execution over the data of the spec, then, the temporary directory
    being created and made absolute, [runNatively] returns the error of a
    spec that is not skipped and whose template fails in one of these two
    ways, [invalid V template: cause] for a failure to parse and
    [failed to substitute V template variables: cause] for a failure in
    execution, [V] being the variable of that spec and [cause] the message
    of the library; and the command is never executed. *)
Theorem template_failure_aborts (E : Engine) (h : Host) (config : TestEnvConfig)
    (args : list string) (random tmp c : string)
    (envs : list (string * EnvVar)) (v : string) (varConf : EnvVar)
    (cause : string) :
  os_MkdirTemp h = inl random →
  filepath.Abs (os_Getwd h) ("./ci-testing" +:+ random) = inl tmp →
  (c, envs) ∈ config → (v, varConf) ∈ envs →
  os.Getenv (environ h) v = "" →
  engine_Parse E ("var-" +:+ v) (Template varConf) = inr cause ∨
  (∃ tmpl, engine_Parse E ("var-" +:+ v) (Template varConf) = inl tmpl ∧
           engine_Execute E tmpl (template_data tmp varConf) = inr cause) →
  ¬ executed (runNatively_with E h config args).2 ∧
  ∃ c' envs' v' varConf' cause',
    (c', envs') ∈ config ∧ (v', varConf') ∈ envs' ∧
    os.Getenv (environ h) v' = "" ∧
    ((engine_Parse E ("var-" +:+ v') (Template varConf') = inr cause' ∧
      (runNatively_with E h config args).1
      = Returns (Some ("invalid " +:+ v' +:+ " template: " +:+ cause'))) ∨
     (∃ tmpl,
        engine_Parse E ("var-" +:+ v') (Template varConf') = inl tmpl ∧
        engine_Execute E tmpl (template_data tmp varConf') = inr cause' ∧
        (runNatively_with E h config args).1
        = Returns (Some ("failed to substitute " +:+ v'
                         +:+ " template variables: " +:+ cause')))).
Proof.
  intros Hmk Habs Hc Hv Hunset Hfails.
  assert (∃ e, render_with E v varConf (template_data tmp varConf) = Err e)
    as [e He].
  { destruct Hfails as [Hparse|(tmpl & Hparse & Hexec)]; eexists;
      apply render_with_Err; [left|right]; eauto. }
  pose proof (range_config_with_outcome E (environ h) tmp config start) as Hloop.
  destruct (range_config_with E (environ h) tmp config start)
    as [st|e'|] eqn:Hrange; [| |done].
  { destruct (Hloop c envs v varConf Hc Hv Hunset) as [s Hs]. congruence. }
  split.
  - intros Hex.
    destruct (runNatively_with_executed_inv _ _ _ _ Hex)
      as (random' & tmp' & st & Hmk' & Habs' & Hloop').
    congruence.
  - destruct Hloop as (c' & envs' & v' & varConf' & Hc' & Hv' & Hunset' & Hr').
    assert ((runNatively_with E h config args).1 = Returns (Some e')) as Hout.
    { unfold runNatively_with.
      by rewrite Hmk, MkdirTemp_ci_testing, Habs, Hrange. }
    apply render_with_Err in Hr'
      as [(cause' & Hparse & ->)|(tmpl & cause' & Hparse & Hexec & ->)];
      exists c', envs', v', varConf', cause';
      (split; [done|]); (split; [done|]); (split; [done|]).
    + left. by split.
    + right. by exists tmpl.
Qed.

Lemma template_failure_aborts_witness :
  (¬ executed (runNatively_with
                 (engine_rejecting "template: var-VMTEST_KERNEL:1: unclosed action")
                 host_amd64 config_malformed ["echo"; "hi"]).2 ∧
   (runNatively_with
      (engine_rejecting "template: var-VMTEST_KERNEL:1: unclosed action")
      host_amd64 config_malformed ["echo"; "hi"]).1
   = Returns (Some "invalid VMTEST_KERNEL template: template: var-VMTEST_KERNEL:1: unclosed action")) ∧
  (¬ executed (runNatively_with
                 (engine_failing "can't evaluate field Dirs in type struct { Files map[string]string }")
                 host_amd64 config_bad_field ["echo"; "hi"]).2 ∧
   (runNatively_with
      (engine_failing "can't evaluate field Dirs in type struct { Files map[string]string }")
      host_amd64 config_bad_field ["echo"; "hi"]).1
   = Returns (Some "failed to substitute VMTEST_QEMU template variables: can't evaluate field Dirs in type struct { Files map[string]string }")).
Proof.
  split.
  - destruct (template_failure_aborts
                (engine_rejecting "template: var-VMTEST_KERNEL:1: unclosed action")
                host_amd64 config_malformed ["echo"; "hi"]
                "4021" "/home/u/vmtest/ci-testing4021"
                "ghcr.io/hugelgupf/vmtest/kernel-amd64:main"
                [("VMTEST_KERNEL",
                  {| Template := "{{.Files.bzImage";
                     Files := [("bzImage", "/bzImage")]; Directories := [] |})]
                "VMTEST_KERNEL"
                {| Template := "{{.Files.bzImage";
                   Files := [("bzImage", "/bzImage")]; Directories := [] |}
                "template: var-VMTEST_KERNEL:1: unclosed action")
      as (Hnot & _).
    + reflexivity.
    + vm_compute. reflexivity.
    + left.
    + left.
    + reflexivity.
    + left. reflexivity.
    + split; [exact Hnot|]. vm_compute. reflexivity.
  - destruct (template_failure_aborts
                (engine_failing "can't evaluate field Dirs in type struct { Files map[string]string }")
                host_amd64 config_bad_field ["echo"; "hi"]
                "4021" "/home/u/vmtest/ci-testing4021"
                "ghcr.io/hugelgupf/vmtest/qemu:main"
                [("VMTEST_QEMU",
                  {| Template := "{{.Dirs.qemu}}/bin/qemu-system-x86_64";
                     Files := [];
                     Directories := [("qemu", "/zqemu")] |})]
                "VMTEST_QEMU"
                {| Template := "{{.Dirs.qemu}}/bin/qemu-system-x86_64";
                   Files := [];
                   Directories := [("qemu", "/zqemu")] |}
                "can't evaluate field Dirs in type struct { Files map[string]string }")
      as (Hnot & _).
    + reflexivity.
    + vm_compute. reflexivity.
    + left.
    + left.
    + reflexivity.
    + right. exists (). split; reflexivity.
    + split; [exact Hnot|]. vm_compute. reflexivity.
Defined.

(** ** The export *)

(** The export happened only if the loop completed. *)
Lemma runNatively_exported_inv (h : Host) (config : TestEnvConfig)
    (args : list string) (staged : list stage_op) (dest : string) :
  Export staged dest ∈ (runNatively h config args).2 →
  ∃ random tmp st,
    os_MkdirTemp h = inl random ∧
    dest = "./ci-testing" +:+ random ∧
    filepath.Abs (os_Getwd h) dest = inl tmp ∧
    range_config (environ h) tmp config start = Ok st ∧
    staged = base st ∧
    exports (runNatively h config args).2 = [Export staged dest] ∧
    (dagger_Export h ≠ (true, None) →
     (∃ e, (runNatively h config args).1
           = Returns (Some ("failed artifact export: " +:+ e))) ∧
     ¬ executed (runNatively h config args).2).
Proof.
  unfold runNatively.
  destruct (os_MkdirTemp h) as [random|e] eqn:Hmk;
    rewrite ?MkdirTemp_ci_testing; [|in_trace].
  destruct (filepath.Abs (os_Getwd h) ("./ci-testing" +:+ random)) as [tmp|e] eqn:Habs;
    [|destruct (keepArtifacts h); in_trace].
  destruct (range_config (environ h) tmp config start) as [st|e|] eqn:Hloop;
    [|destruct (keepArtifacts h); in_trace|in_trace].
  intros Hin. exists random, tmp, st.
  assert (Export staged dest = Export (base st) ("./ci-testing" +:+ random))
    as Heq.
  { destruct (dagger_Export h) as [[|] [e|]], args, (cmd_Run h),
      (keepArtifacts h); revert Hin; in_trace. }
  simplify_eq. repeat split; try done.
  - destruct (dagger_Export h) as [[|] [e|]], args, (cmd_Run h),
      (keepArtifacts h); reflexivity.
  - destruct (dagger_Export h) as [[|] [e|]]; [eauto| done |eauto..].
  - intros (name & cargs & cenv & Hexec). revert Hexec.
    destruct (dagger_Export h) as [[|] [e|]]; [|done|..];
      destruct (keepArtifacts h); in_trace.
Qed.

(** C6: the export appears once in an execution, after the loop has
    completed, and it exports every file and every directory of every
    spec that is not skipped, of all containers; if it reports failure or
    returns an error, [runNatively] returns the export error and the
    command is never executed. *)
Theorem export_after_staging_and_fatal (h : Host) (config : TestEnvConfig)
    (args : list string) (staged : list stage_op) (dest : string) :
  Export staged dest ∈ (runNatively h config args).2 →
  (∃ tmp st,
     range_config (environ h) tmp config start = Ok st ∧ staged = base st) ∧
  (∀ c envs v varConf,
     (c, envs) ∈ config → (v, varConf) ∈ envs → os.Getenv (environ h) v = "" →
     (∀ t f, (t, f) ∈ Files varConf → WithFile f c f ∈ staged) ∧
     (∀ t d, (t, d) ∈ Directories varConf → WithDirectory d c d ∈ staged)) ∧
  exports (runNatively h config args).2 = [Export staged dest] ∧
  (dagger_Export h ≠ (true, None) →
   (∃ e, (runNatively h config args).1
         = Returns (Some ("failed artifact export: " +:+ e))) ∧
   ¬ executed (runNatively h config args).2).
Proof.
  intros Hin.
  destruct (runNatively_exported_inv _ _ _ _ _ Hin)
    as (random & tmp & st & _ & _ & _ & Hloop & -> & Hone & Hfail).
  split; [eauto|]. split; [|done].
  intros c envs v varConf Hc Hv Hunset.
  assert ((c, v, varConf) ∈ survivors (environ h) config) as Hsurv
    by (apply elem_of_survivors; eauto).
  rewrite range_config_survivors in Hloop.
  apply materialize_all_Ok in Hloop as [-> _]. cbn [base start app].
  assert (∀ op, op ∈ stage_ops c varConf →
                op ∈ survivors (environ h) config ≫= λ x, stage_ops x.1.1 x.2)
    as Hops.
  { intros op Hop. apply list_elem_of_bind. by exists (c, v, varConf). }
  split; intros t p Hp; apply Hops; unfold stage_ops; rewrite elem_of_app.
  - left. by apply (list_elem_of_fmap_2 (λ e, WithFile e.2 c e.2) _ (t, p)).
  - right. by apply (list_elem_of_fmap_2 (λ e, WithDirectory e.2 c e.2) _ (t, p)).
Qed.

Lemma export_after_staging_and_fatal_witness :
  (runNatively host_export_fails config_amd64 ["echo"; "hi"]).1
  = Returns (Some "failed artifact export: %!w(<nil>)") ∧
  ¬ executed (runNatively host_export_fails config_amd64 ["echo"; "hi"]).2.
Proof.
  destruct (export_after_staging_and_fatal host_export_fails config_amd64
              ["echo"; "hi"]
              [ WithFile "/bzImage" "ghcr.io/hugelgupf/vmtest/kernel-amd64:main" "/bzImage";
                WithDirectory "/zqemu" "ghcr.io/hugelgupf/vmtest/qemu:main" "/zqemu" ]
              "./ci-testing31")
    as (_ & _ & _ & Hfail).
  - vm_compute. right. left.
  - destruct Hfail as [_ Hnot]; [vm_compute; discriminate|].
    split; [vm_compute; reflexivity|exact Hnot].
Defined.


(** ** Paths *)

Lemma append_cons (c : ascii) (s t : string) :
  String c s +:+ t = String c (s +:+ t).
Proof. reflexivity. Qed.

Lemma append_nil_l (s : string) : "" +:+ s = s.
Proof. reflexivity. Qed.

Lemma append_assoc (s t u : string) : (s +:+ t) +:+ u = s +:+ t +:+ u.
Proof. induction s as [|c s IH]; [done|]. by rewrite !append_cons, IH. Qed.

Lemma split_on_not_nil (sep : ascii) (s : string) : split_on sep s ≠ [].
Proof.
  destruct s as [|c s]; cbn; [done|].
  case_decide; [done|]. by destruct (split_on sep s).
Qed.

Lemma split_on_app (sep : ascii) (s t : string) :
  split_on sep (s +:+ String sep t) = split_on sep s ++ split_on sep t.
Proof.
  induction s as [|c s IH].
  - rewrite append_nil_l. cbn. by rewrite decide_True.
  - rewrite append_cons. cbn. case_decide; [by rewrite IH|].
    rewrite IH. pose proof (split_on_not_nil sep s).
    by destruct (split_on sep s).
Qed.

Lemma split_on_slash_free (s : string) :
  slash_free s = true → split_on "/" s = [s].
Proof.
  induction s as [|c s IH]; [done|]. cbn.
  intros [Hc Hs]%andb_prop. apply negb_true_iff, bool_decide_eq_false in Hc.
  rewrite decide_False by done. by rewrite IH.
Qed.

Lemma Forall_slash_free_split_on (s : string) :
  Forall (λ e, slash_free e = true) (split_on "/" s).
Proof.
  induction s as [|c s IH]; cbn; [by repeat constructor|].
  case_decide as Hc; [by constructor|].
  pose proof (split_on_not_nil "/" s).
  destruct (split_on "/" s) as [|x xs]; [done|].
  inversion_clear IH as [|? ? Hx Hxs]. constructor; [|done].
  cbn. rewrite Hx. by rewrite bool_decide_eq_false_2.
Qed.

Lemma join_slash_cons (e : string) (es : list string) :
  es ≠ [] → filepath.join_slash (e :: es) = e +:+ "/" +:+ filepath.join_slash es.
Proof. by destruct es. Qed.

Lemma join_slash_snoc (es : list string) (e : string) :
  es ≠ [] → filepath.join_slash (es ++ [e]) = filepath.join_slash es +:+ "/" +:+ e.
Proof.
  induction es as [|x es IH]; [done|]. intros _.
  destruct es as [|y es]; [done|].
  change ((x :: y :: es) ++ [e]) with (x :: ((y :: es) ++ [e])).
  rewrite !join_slash_cons by done. rewrite IH by done.
  by rewrite !append_assoc.
Qed.

Lemma split_on_join_slash (es : list string) :
  es ≠ [] → Forall (λ e, slash_free e = true) es →
  split_on "/" (filepath.join_slash es) = es.
Proof.
  induction es as [|x es IH]; [done|]. intros _ Hall.
  inversion_clear Hall as [|? ? Hx Hes].
  destruct es as [|y es]; [by apply split_on_slash_free|].
  rewrite join_slash_cons by done.
  change ("/" +:+ filepath.join_slash (y :: es)) with (String "/" (filepath.join_slash (y :: es))).
  rewrite split_on_app, split_on_slash_free, IH by done. done.
Qed.

(** Elements are appended as they are. *)
Lemma clean_step_elements (rooted : bool) (es out : list string) (dotdot : nat) :
  Forall element es →
  fold_left (filepath.clean_step rooted) es (out, dotdot) = (out ++ es, dotdot).
Proof.
  revert out. induction es as [|e es IH]; intros out Hes; cbn [fold_left].
  - by rewrite app_nil_r.
  - inversion_clear Hes as [|? ? (He1 & He2 & He3 & _) Hes'].
    unfold filepath.clean_step at 2. rewrite !decide_False by done.
    rewrite IH by done. by rewrite <- app_assoc.
Qed.

(** Below the root, the elements written are elements, and [dotdot] stays 0. *)
Lemma clean_step_rooted (es out : list string) :
  Forall (λ e, slash_free e = true) es → Forall element out →
  ∃ out', fold_left (filepath.clean_step true) es (out, 0) = (out', 0) ∧
          Forall element out'.
Proof.
  revert out. induction es as [|e es IH]; intros out Hes Hout; cbn [fold_left].
  - eauto.
  - inversion_clear Hes as [|? ? He Hes'].
    unfold filepath.clean_step at 2.
    repeat case_decide; try (by apply IH).
    + apply IH; [done|]. destruct out as [|x out _] using rev_ind; [done|].
      rewrite removelast_last. by apply Forall_app in Hout as [? _].
    + apply IH; [done|]. apply Forall_app. split; [done|].
      by repeat constructor.
Qed.

Lemma Clean_rooted (p : string) :
  filepath.Clean ("/" +:+ p) =
  "/" +:+ filepath.join_slash (fold_left (filepath.clean_step true) (split_on "/" p) ([], 0)).1.
Proof.
  unfold filepath.Clean. rewrite decide_False by done.
  change (filepath.IsAbs ("/" +:+ p)) with true. cbn iota.
  change ("/" +:+ p) with (String "/" p). cbn [split_on].
  rewrite decide_True by done. cbn [fold_left].
  unfold filepath.clean_step at 2. by rewrite decide_True.
Qed.

(** Joining an element to a clean absolute path appends it. *)
Lemma Join_clean_abs (p f : string) :
  clean_abs p → element f → filepath.Join p ("/" +:+ f) = p +:+ "/" +:+ f.
Proof.
  intros (out & Hne & Hout & ->) Hf. unfold filepath.Join.
  rewrite decide_False by done.
  rewrite append_assoc, Clean_rooted.
  change ("/" +:+ "/" +:+ f) with (String "/" (String "/" f)).
  rewrite split_on_app. cbn [split_on]. rewrite decide_True by done.
  rewrite split_on_join_slash; [|done|].
  2:{ eapply Forall_impl; [exact Hout|]. by intros e (_ & _ & _ & He). }
  destruct Hf as (Hf1 & Hf2 & Hf3 & Hf4).
  rewrite split_on_slash_free by done.
  rewrite fold_left_app, clean_step_elements by done. cbn [fold_left app].
  unfold filepath.clean_step. rewrite decide_True by done.
  rewrite !decide_False by done. cbn [fst].
  by rewrite join_slash_snoc, append_assoc.
Qed.

Lemma slash_free_app (s t : string) :
  slash_free s = true → slash_free t = true → slash_free (s +:+ t) = true.
Proof.
  induction s as [|c s IH]; [done|]. rewrite append_cons. cbn.
  intros [Hc Hs]%andb_prop Ht. rewrite Hc. by apply IH.
Qed.

(** The temporary directory, made absolute, is a clean absolute path that
    ends in the directory's name. *)
Lemma Abs_ci_testing (wd random : string) :
  filepath.IsAbs wd = true → slash_free random = true →
  ∃ tmp, filepath.Abs (inl wd) ("./ci-testing" +:+ random) = inl tmp ∧ clean_abs tmp.
Proof.
  intros Hwd Hrandom. unfold filepath.Abs. change (filepath.IsAbs _) with false. cbn iota.
  eexists. split; [reflexivity|].
  destruct wd as [|c wd]; [done|]. cbn in Hwd.
  apply bool_decide_eq_true in Hwd as ->.
  unfold filepath.Join. rewrite decide_False by done.
  change (String "/" wd) with ("/" +:+ wd).
  rewrite append_assoc, Clean_rooted.
  change ("/" +:+ "./ci-testing" +:+ random)
    with (String "/" ("." +:+ String "/" ("ci-testing" +:+ random))).
  rewrite !split_on_app, fold_left_app.
  destruct (clean_step_rooted (split_on "/" wd) [])
    as (out & -> & Hout); [apply Forall_slash_free_split_on|done|].
  assert (element ("ci-testing" +:+ random)) as Helem.
  { repeat split; first [done | by apply slash_free_app]. }
  rewrite (split_on_slash_free ".") by done.
  rewrite (split_on_slash_free ("ci-testing" +:+ random)) by apply Helem.
  cbn [fold_left app]. unfold filepath.clean_step at 2. rewrite decide_False by done.
  rewrite decide_True by done.
  unfold filepath.clean_step. destruct Helem as (? & ? & ? & ?).
  rewrite !decide_False by done. cbn [fst].
  exists (out ++ ["ci-testing" +:+ random]). split; [by destruct out|].
  split; [|done]. apply Forall_app. split; [done|].
  by repeat constructor.
Qed.

(** ** The temporary directory and the paths given to templates *)




Lemma fold_insert_lookup_notin (g : string → string)
    (l : list (string * string)) (m : gmap string string) (k : string) :
  k ∉ l.*1 →
  fold_left (λ m (e : string * string), <[e.1 := g e.2]> m) l m !! k = m !! k.
Proof.
  revert m. induction l as [|[t f] l IH]; intros m Hk; cbn [fold_left fst snd];
    [done|].
  rewrite fmap_cons in Hk. apply not_elem_of_cons in Hk as [Hne Hk].
  rewrite IH by done. cbn in Hne. by rewrite lookup_insert_ne.
Qed.

Lemma fold_insert_lookup_elem (g : string → string)
    (l : list (string * string)) (m : gmap string string) (k p : string) :
  NoDup l.*1 → (k, p) ∈ l →
  fold_left (λ m (e : string * string), <[e.1 := g e.2]> m) l m !! k
  = Some (g p).
Proof.
  revert m. induction l as [|[t f] l IH]; intros m Hnd Hin; [by inversion Hin|].
  rewrite fmap_cons in Hnd. apply NoDup_cons in Hnd as [Ht Hnd].
  cbn [fold_left fst snd]. apply elem_of_cons in Hin as [Heq|Hin].
  - simplify_eq. rewrite fold_insert_lookup_notin by done.
    apply lookup_insert_eq.
  - by apply IH.
Qed.





(** ** amd64 *)

Lemma append_nil_r (s : string) : s +:+ "" = s.
Proof. induction s as [|c s IH]; [done|]. by rewrite append_cons, IH. Qed.

Lemma render_kernel_amd64 (tmp : string) :
  clean_abs tmp →
  render "VMTEST_KERNEL" spec_kernel_amd64 (template_data tmp spec_kernel_amd64)
  = Ok (tmp +:+ "/bzImage").
Proof.
  intros Htmp. unfold render.
  replace (template.Parse (Template spec_kernel_amd64))
    with (Ok [template.TextNode ""; template.FieldNode ["Files"; "bzImage"]; template.TextNode ""])
    by (vm_compute; reflexivity).
  unfold template_data, stage.
  cbn [fold_left Files Directories spec_kernel_amd64 stage_file stage_directory
       fst snd].
  cbn [template.Execute template.eval_field]. rewrite decide_True by done.
  rewrite lookup_insert_eq. cbn.
  replace (filepath.Join tmp "/bzImage") with (tmp +:+ "/bzImage")
    by (symmetry; by apply (Join_clean_abs tmp "bzImage")).
  by rewrite append_nil_r.
Qed.

Lemma render_qemu_amd64 (tmp : string) :
  clean_abs tmp →
  render "VMTEST_QEMU" spec_qemu_amd64 (template_data tmp spec_qemu_amd64)
  = Ok (tmp +:+ "/zqemu/bin/qemu-system-x86_64 -L " +:+ tmp
        +:+ "/zqemu/pc-bios -m 1G").
Proof.
  intros Htmp. unfold render.
  replace (template.Parse (Template spec_qemu_amd64))
    with (Ok [ template.TextNode ""; template.FieldNode ["Files"; "qemu"];
               template.TextNode "/bin/qemu-system-x86_64 -L ";
               template.FieldNode ["Files"; "qemu"]; template.TextNode "/pc-bios -m 1G" ])
    by (vm_compute; reflexivity).
  unfold template_data, stage.
  cbn [fold_left Files Directories spec_qemu_amd64 stage_file stage_directory
       fst snd].
  cbn [template.Execute template.eval_field]. rewrite !decide_True by done.
  rewrite lookup_insert_eq. cbn.
  replace (filepath.Join tmp "/zqemu") with (tmp +:+ "/zqemu")
    by (symmetry; by apply (Join_clean_abs tmp "zqemu")).
  by rewrite append_nil_r, !append_assoc.
Qed.

(** C2: for amd64 (named by VMTEST_ARCH, or the host's architecture when
    VMTEST_ARCH names no entry), with VMTEST_KERNEL and VMTEST_QEMU unset,
    in whatever order the configuration is visited, the loop completes and
    the assignments are exactly [VMTEST_KERNEL=<tmp>/bzImage] and
    [VMTEST_QEMU=<tmp>/zqemu/bin/qemu-system-x86_64 -L <tmp>/zqemu/pc-bios -m 1G],
    where [<tmp>] is the absolute path of the temporary directory; these
    are what the command receives after the process environment. *)
Theorem amd64_assignments (h : Host) (config : TestEnvConfig)
    (wd random : string) :
  os.Getenv (environ h) "VMTEST_ARCH" = "amd64" ∨
  (configs !! os.Getenv (environ h) "VMTEST_ARCH" = None ∧ GOARCH h = "amd64") →
  config ≡ₚ defaultConfig (environ h) (GOARCH h) →
  os.Getenv (environ h) "VMTEST_KERNEL" = "" →
  os.Getenv (environ h) "VMTEST_QEMU" = "" →
  os_MkdirTemp h = inl random → slash_free random = true →
  os_Getwd h = inl wd → filepath.IsAbs wd = true →
  ∃ tmp st,
    filepath.Abs (os_Getwd h) ("./ci-testing" +:+ random) = inl tmp ∧
    range_config (environ h) tmp config start = Ok st ∧
    envv st ≡ₚ
      [ "VMTEST_KERNEL=" +:+ tmp +:+ "/bzImage";
        "VMTEST_QEMU=" +:+ tmp +:+ "/zqemu/bin/qemu-system-x86_64 -L "
          +:+ tmp +:+ "/zqemu/pc-bios -m 1G" ] ∧
    ∀ args name cargs cenv,
      Exec name cargs cenv ∈ (runNatively h config args).2 →
      cenv = os.Environ (environ h) ++ envv st.
Proof.
  intros Harch Hperm Hkernel Hqemu Hmk Hrandom Hwd Habs.
  assert (defaultConfig (environ h) (GOARCH h) = config_amd64) as Hcfg.
  { unfold defaultConfig. destruct Harch as [->|[-> ->]]; done. }
  rewrite Hcfg in Hperm.
  destruct (Abs_ci_testing wd random Habs Hrandom) as (tmp & Htmp & Hclean).
  rewrite <- Hwd in Htmp.
  assert (∃ st, range_config (environ h) tmp config start = Ok st ∧
                envv st ≡ₚ
                  [ "VMTEST_KERNEL=" +:+ tmp +:+ "/bzImage";
                    "VMTEST_QEMU=" +:+ tmp +:+ "/zqemu/bin/qemu-system-x86_64 -L "
                      +:+ tmp +:+ "/zqemu/pc-bios -m 1G" ])
    as (st & Hloop & Henvv).
  { symmetry in Hperm. apply Permutation_length_2_inv in Hperm as [->| ->];
      rewrite range_config_survivors; unfold survivors;
      cbn [mbind list_bind fmap list_fmap fst snd app];
      rewrite !filter_cons, !filter_nil; cbn [fst snd];
      rewrite !decide_True by done;
      cbn [materialize_all app]; unfold materialize; cbn [fst snd];
      fold spec_kernel_amd64; fold spec_qemu_amd64;
      rewrite render_kernel_amd64, render_qemu_amd64 by done;
      cbn; eexists; (split; [reflexivity|]); cbn [envv].
    - done.
    - apply perm_swap. }
  exists tmp, st. repeat split; try done.
  intros args name cargs cenv Hin.
  destruct (runNatively_executed_inv _ _ _ _ _ _ Hin)
    as (random' & tmp' & st' & Hmk' & Habs' & Hloop' & _ & _ & ->).
  congruence.
Qed.

Lemma amd64_assignments_witness :
  ∃ tmp st,
    filepath.Abs (os_Getwd host_amd64) "./ci-testing4021" = inl tmp ∧
    range_config (environ host_amd64) tmp config_amd64 start = Ok st ∧
    envv st ≡ₚ
      [ "VMTEST_KERNEL=" +:+ tmp +:+ "/bzImage";
        "VMTEST_QEMU=" +:+ tmp +:+ "/zqemu/bin/qemu-system-x86_64 -L "
          +:+ tmp +:+ "/zqemu/pc-bios -m 1G" ].
Proof.
  destruct (amd64_assignments host_amd64 config_amd64 "/home/u/vmtest" "4021")
    as (tmp & st & Habs & Hloop & Henvv & _);
    try (vm_compute; reflexivity).
  - right. vm_compute. split; reflexivity.
  - exists tmp, st. repeat split; assumption.
Defined.


(** ** Further properties of the program

    The temporary directory, the print and the exit status. *)

(** X1: without -keep-artifacts, once the temporary directory has been
    created, every return of [runNatively] (an error of [filepath.Abs], of
    a template, of the export or of the command, the panic on an empty
    command, and success) removes that directory: the removal is the last
    effect, and the only removal. *)
Theorem temporary_directory_removed_once (h : Host) (config : TestEnvConfig)
    (args : list string) (random : string) :
  keepArtifacts h = false →
  os_MkdirTemp h = inl random →
  (runNatively h config args).1 ≠ OutsideModel →
  ∃ before,
    (runNatively h config args).2
    = before ++ [RemoveAll ("./ci-testing" +:+ random)] ∧
    removals before = [].
Proof.
  intros Hkeep Hmk. unfold runNatively.
  rewrite Hmk, MkdirTemp_ci_testing, Hkeep.
  destruct (filepath.Abs (os_Getwd h) ("./ci-testing" +:+ random)) as [tmp|e];
    [|intros _; cbn; before_last].
  destruct (range_config (environ h) tmp config start) as [st|e|];
    [|intros _; cbn; before_last|done].
  destruct (dagger_Export h) as [[|] [e|]], args, (cmd_Run h);
    intros _; cbn; before_last.
Qed.

Lemma temporary_directory_removed_once_witness :
  ∃ before,
    (runNatively host_export_fails config_amd64 ["echo"; "hi"]).2
    = before ++ [RemoveAll "./ci-testing31"] ∧
    removals before = [].
Proof.
  apply (temporary_directory_removed_once host_export_fails config_amd64
           ["echo"; "hi"] "31"); vm_compute; congruence.
Defined.

(** X2: [runNatively] removes nothing but the directory it created, and
    only without -keep-artifacts: with the flag set, or when
    [os.MkdirTemp] failed, the trace has no removal. *)
Theorem removes_only_its_own_directory (h : Host) (config : TestEnvConfig)
    (args : list string) (path : string) :
  RemoveAll path ∈ (runNatively h config args).2 →
  keepArtifacts h = false ∧
  ∃ random, os_MkdirTemp h = inl random ∧ path = "./ci-testing" +:+ random.
Proof.
  unfold runNatively.
  destruct (os_MkdirTemp h) as [random|e] eqn:Hmk;
    rewrite ?MkdirTemp_ci_testing; [|in_trace].
  destruct (keepArtifacts h) eqn:Hkeep.
  - repeat (match goal with
            | |- context [match ?x with _ => _ end] => destruct x
            end); in_trace.
  - intros Hin. split; [done|]. exists random. split; [done|].
    revert Hin.
    repeat (match goal with
            | |- context [match ?x with _ => _ end] => destruct x
            end);
      cbn; rewrite ?elem_of_app, ?elem_of_cons, ?elem_of_nil;
      intuition (by simplify_eq).
Qed.

Lemma removes_only_its_own_directory_witness :
  keepArtifacts host_amd64 = false ∧
  ∃ random, os_MkdirTemp host_amd64 = inl random ∧
            "./ci-testing4021" = "./ci-testing" +:+ random.
Proof.
  apply (removes_only_its_own_directory host_amd64 config_amd64 ["echo"; "hi"]).
  vm_compute. do 3 right. left.
Defined.

(** X3: the assignments are printed only with -keep-artifacts and only in
    an execution that ran the command: an error before [cmd.Run] (temporary
    directory, template, export) prints nothing, whatever the flag. *)
Theorem assignments_printed_only_after_command (h : Host)
    (config : TestEnvConfig) (args : list string) (text : string) :
  Stdout text ∈ (runNatively h config args).2 →
  keepArtifacts h = true ∧
  ∃ name cargs tmp st,
    range_config (environ h) tmp config start = Ok st ∧
    Exec name cargs (os.Environ (environ h) ++ envv st)
    ∈ (runNatively h config args).2 ∧
    Stdout text ∈ print_assignments (envv st).
Proof.
  unfold runNatively.
  destruct (os_MkdirTemp h) as [random|e] eqn:Hmk;
    rewrite ?MkdirTemp_ci_testing; [|in_trace].
  destruct (filepath.Abs (os_Getwd h) ("./ci-testing" +:+ random)) as [tmp|e];
    [|destruct (keepArtifacts h); in_trace].
  destruct (range_config (environ h) tmp config start) as [st|e|] eqn:Hloop;
    [|destruct (keepArtifacts h); in_trace|in_trace].
  destruct (dagger_Export h) as [[|] [e|]];
    try (destruct (keepArtifacts h); in_trace).
  destruct args as [|name rest]; [destruct (keepArtifacts h); in_trace|].
  destruct (keepArtifacts h); [|destruct (cmd_Run h); in_trace].
  intros Hin. split; [done|]. exists name, rest, tmp, st.
  split; [done|]. split.
  - destruct (cmd_Run h); cbn; do 2 right; left.
  - revert Hin. unfold print_assignments. destruct (cmd_Run h); cbn;
      rewrite ?elem_of_app, ?elem_of_cons, ?elem_of_nil;
      intuition (try discriminate).
Qed.

Lemma assignments_printed_only_after_command_witness :
  keepArtifacts host_keep_failing = true.
Proof.
  apply (assignments_printed_only_after_command host_keep_failing config_amd64
           ["go"; "test"; "./..."]
           ("VMTEST_KERNEL=/src/ci-testing9/bzImage ..." +:+ nl)).
  vm_compute. do 4 right. left.
Defined.

(** ** The exit status *)

Lemma runNatively_nonempty_no_panic (h : Host) (config : TestEnvConfig)
    (name : string) (rest : list string) (msg : string) :
  (runNatively h config (name :: rest)).1 ≠ Panics msg.
Proof.
  unfold runNatively.
  repeat (match goal with
          | |- context [match ?x with _ => _ end] => destruct x
          end); done.
Qed.

Lemma run_no_panic (h : Host) (msg : string) : (run h).1 ≠ Panics msg.
Proof.
  unfold run. case_decide as Hlen; [done|].
  destruct (dagger_Connect h); [done|]. cbn [fst].
  destruct (flag_Args h) as [|name rest]; [simpl in Hlen; lia|].
  apply runNatively_nonempty_no_panic.
Qed.

(** X4: [run] never panics: the command that
    [exec.Command(args[0], args[1:]...)] takes apart is not empty behind
    the argument check; [runNatively] alone, given no command, panics there
    once the export has succeeded, with the runtime error
    [slice bounds out of range [1:0]]. *)
Theorem run_never_panics (h : Host) (msg : string) :
  (run h).1 ≠ Panics msg ∧
  (∀ config random tmp st,
     os_MkdirTemp h = inl random →
     filepath.Abs (os_Getwd h) ("./ci-testing" +:+ random) = inl tmp →
     range_config (environ h) tmp config start = Ok st →
     dagger_Export h = (true, None) →
     (runNatively h config []).1 = Panics "slice bounds out of range [1:0]").
Proof.
  split; [apply run_no_panic|].
  intros config random tmp st Hmk Habs Hloop Hexp. unfold runNatively.
  by rewrite Hmk, MkdirTemp_ci_testing, Habs, Hloop, Hexp.
Qed.

Lemma run_never_panics_witness :
  (runNatively host_amd64 config_amd64 []).1
  = Panics "slice bounds out of range [1:0]".
Proof.
  apply (proj2 (run_never_panics host_amd64 "") config_amd64
           "4021" "/home/u/vmtest/ci-testing4021"
           {| base := [ WithFile "/bzImage" "ghcr.io/hugelgupf/vmtest/kernel-amd64:main" "/bzImage";
                        WithDirectory "/zqemu" "ghcr.io/hugelgupf/vmtest/qemu:main" "/zqemu" ];
              envv := [ "VMTEST_KERNEL=/home/u/vmtest/ci-testing4021/bzImage";
                        "VMTEST_QEMU=/home/u/vmtest/ci-testing4021/zqemu/bin/qemu-system-x86_64 -L /home/u/vmtest/ci-testing4021/zqemu/pc-bios -m 1G" ] |});
    vm_compute; reflexivity.
Defined.

Lemma runNatively_returns_nil_iff (h : Host) (config : TestEnvConfig)
    (args : list string) :
  (runNatively h config args).1 = Returns None ↔
  executed (runNatively h config args).2 ∧ cmd_Run h = None.
Proof.
  split.
  - unfold runNatively, executed.
    repeat (match goal with
            | |- context [match ?x with _ => _ end] => destruct x eqn:?
            end); try done;
      intros _; (split; [|done]); do 3 eexists; cbn; do 2 right; left.
  - intros [(name & cargs & cenv & Hin) Hrun].
    destruct (runNatively_executed_inv _ _ _ _ _ _ Hin)
      as (random & tmp & st & Hmk & Habs & Hloop & Hexp & -> & _).
    rewrite (runNatively_reaches_command h config name cargs random tmp st)
      by done.
    by rewrite Hrun.
Qed.

(** X5: of an execution that receives no signal.  The process ends with
    status 0 when [flag.Parse] is asked for the help ([-h]), and otherwise
    only when the flags are accepted, the command was executed and
    [cmd.Run] returned no error; a command line [flag.Parse] rejects ends
    it with status 2 before [run] does anything; every error [run] returns
    (too few arguments, connection, temporary directory, template, export,
    command) ends it with status 1 and the message [Error: ...]; and once
    the flags are accepted the status is 0 or 1. *)
Theorem main_exit_status (flags : flag_answer) (h : Host) :
  ((main flags h).1 = Exit 0 None ↔
   flags = FlagsHelp ∨
   (flags = FlagsParsed ∧ executed (main flags h).2 ∧ cmd_Run h = None)) ∧
  (flags = FlagsRejected → main flags h = (Exit 2 None, [])) ∧
  (flags = FlagsHelp → main flags h = (Exit 0 None, [])) ∧
  (∀ err, flags = FlagsParsed → (run h).1 = Returns (Some err) →
          (main flags h).1 = Exit 1 (Some ("Error: " +:+ err))) ∧
  (∀ status logged, flags = FlagsParsed →
     (main flags h).1 = Exit status logged →
     (status = 0%nat ∧ (run h).1 = Returns None) ∨
     (status = 1%nat ∧ ∃ err, (run h).1 = Returns (Some err))) ∧
  (flags = FlagsParsed → (main flags h).2 = (run h).2).
Proof.
  assert ((run h).1 = Returns None ↔ executed (run h).2 ∧ cmd_Run h = None)
    as Hnil.
  { unfold run. case_decide as Hlen.
    - cbn. split; [done|]. intros [(n & a & e & Hin) _]. by inversion Hin.
    - destruct (dagger_Connect h).
      + cbn. split; [done|]. intros [(n & a & e & Hin) _]. by inversion Hin.
      + cbn [fst snd]. rewrite runNatively_returns_nil_iff. unfold executed.
        split; intros [(n & a & e & Hin) Hrun]; (split; [|done]);
          exists n, a, e; revert Hin;
          rewrite elem_of_cons, elem_of_app, elem_of_cons, elem_of_nil;
          intuition (try discriminate). }
  pose proof (run_no_panic h) as Hpanic.
  split; [|split; [|split; [|split; [|split]]]].
  - destruct flags; unfold main.
    + destruct (run h).1 as [[err|]| |] eqn:Hrun; cbn [fst snd].
      * split; [done|]. intros [|(_ & Hex)]; [done|]. by apply Hnil in Hex.
      * split; [|done]. intros _. right. split; [done|]. by apply Hnil.
      * split; [done|]. intros [|(_ & Hex)]; [done|]. by apply Hnil in Hex.
      * split; [done|]. intros [|(_ & Hex)]; [done|]. by apply Hnil in Hex.
    + cbn. split; [by left|done].
    + cbn. split; [done|]. by intros [|[? _]].
  - by intros ->.
  - by intros ->.
  - intros err -> Hrun. unfold main. by rewrite Hrun.
  - intros status logged ->. unfold main.
    destruct (run h).1 as [[err|]| |] eqn:Hrun; cbn [fst]; intros [= <- <-].
    + right. eauto.
    + by left.
    + by destruct (Hpanic msg).
  - intros ->. unfold main. by destruct (run h).1 as [[err|]| |].
Qed.


(** ** The loop, exactly *)

Lemma materialize_all_complete (tmp : string)
    (l : list (string * string * EnvVar)) (st : loop_state) :
  Forall (renders tmp) l →
  materialize_all tmp l st =
  Ok {| base := base st ++ (l ≫= λ x, stage_ops x.1.1 x.2);
        envv := envv st ++ (entry_of tmp <$> l) |}.
Proof.
  revert st. induction l as [|x l IH]; intros st Hall.
  - cbn. rewrite !app_nil_r. by destruct st.
  - inversion_clear Hall as [|? ? [s Hs] Hl].
    rewrite bind_cons, fmap_cons.
    cbn [materialize_all]. unfold materialize at 1. rewrite Hs.
    cbn [mbind result_bind]. rewrite IH by done. cbn [base envv].
    rewrite <- !app_assoc. unfold entry_of at 2. by rewrite Hs.
Qed.

Lemma materialize_all_renders (tmp : string)
    (l : list (string * string * EnvVar)) (st st' : loop_state) :
  materialize_all tmp l st = Ok st' → Forall (renders tmp) l.
Proof.
  intros (_ & values & Hvalues & _)%materialize_all_Ok.
  induction Hvalues as [|x s l values Hx _ IH]; constructor; [|done].
  by exists s.
Qed.

(** X6: the loop completes exactly when the template of every variable it
    does not skip renders; it has then staged the files and then the
    directories of each of these variables, in visiting order, and nothing
    else, and has appended one assignment for each of them, in visiting
    order, and nothing else.  Two specs of one name in different
    containers yield two assignments. *)
Theorem loop_result_exact (env : list (string * string)) (tmp : string)
    (config : TestEnvConfig) (st st' : loop_state) :
  range_config env tmp config st = Ok st' ↔
  Forall (renders tmp) (survivors env config) ∧
  base st' = base st ++ (survivors env config ≫= λ x, stage_ops x.1.1 x.2) ∧
  envv st' = envv st ++ (entry_of tmp <$> survivors env config).
Proof.
  rewrite range_config_survivors. split.
  - intros Hloop. pose proof (materialize_all_renders _ _ _ _ Hloop) as Hall.
    rewrite materialize_all_complete in Hloop by done.
    by simplify_eq.
  - intros (Hall & Hbase & Henvv). rewrite materialize_all_complete by done.
    destruct st'. cbn in *. by subst.
Qed.

Lemma loop_result_exact_witness :
  Forall (renders "/w/ci-testing8") (survivors (environ host_empty_value) config_amd64) ∧
  [WithFile "/bzImage" "ghcr.io/hugelgupf/vmtest/kernel-amd64:main" "/bzImage"]
  = base start
    ++ (survivors (environ host_empty_value) config_amd64
        ≫= λ x, stage_ops x.1.1 x.2) ∧
  ["VMTEST_KERNEL=/w/ci-testing8/bzImage"]
  = envv start
    ++ (entry_of "/w/ci-testing8"
        <$> survivors (environ host_empty_value) config_amd64).
Proof.
  apply (proj1 (loop_result_exact (environ host_empty_value) "/w/ci-testing8"
                  config_amd64 start
                  {| base := [WithFile "/bzImage" "ghcr.io/hugelgupf/vmtest/kernel-amd64:main" "/bzImage"];
                     envv := ["VMTEST_KERNEL=/w/ci-testing8/bzImage"] |})).
  vm_compute. reflexivity.
Defined.

Lemma materialize_all_Err_iff (tmp : string)
    (l : list (string * string * EnvVar)) (st : loop_state) (e : string) :
  materialize_all tmp l st = Err e ↔
  ∃ l1 x l2, l = l1 ++ x :: l2 ∧ Forall (renders tmp) l1 ∧
             render x.1.2 x.2 (template_data tmp x.2) = Err e.
Proof.
  revert st. induction l as [|x l IH]; intros st.
  - cbn. split; [done|]. intros (l1 & y & l2 & Heq & _). by destruct l1.
  - cbn [materialize_all]. unfold materialize at 1.
    destruct (render x.1.2 x.2 (template_data tmp x.2)) as [s|e'|] eqn:Hr; cbn.
    + rewrite IH. split.
      * intros (l1 & y & l2 & -> & Hl1 & Hy). exists (x :: l1), y, l2.
        split; [done|]. split; [|done]. constructor; [by exists s|done].
      * intros (l1 & y & l2 & Heq & Hl1 & Hy). destruct l1 as [|z l1].
        { cbn in Heq. simplify_eq. congruence. }
        cbn in Heq. simplify_eq. inversion_clear Hl1. by exists l1, y, l2.
    + split.
      * intros [= <-]. exists [], x, l. by repeat split.
      * intros (l1 & y & l2 & Heq & Hl1 & Hy). destruct l1 as [|z l1].
        { cbn in Heq. simplify_eq. congruence. }
        cbn in Heq. simplify_eq. inversion_clear Hl1 as [|? ? [s Hs] _].
        congruence.
    + split; [done|].
      intros (l1 & y & l2 & Heq & Hl1 & Hy). destruct l1 as [|z l1].
      * cbn in Heq. simplify_eq. congruence.
      * cbn in Heq. simplify_eq. inversion_clear Hl1 as [|? ? [s Hs] _].
        congruence.
Qed.

(** X7: the loop returns the error of the first variable, in visiting
    order, that is not skipped and whose template fails, every variable
    visited before it having rendered; a later failure is never reported,
    and which failure is reported depends on the visiting order. *)
Theorem loop_error_is_first_failure (env : list (string * string))
    (tmp : string) (config : TestEnvConfig) (st : loop_state) (e : string) :
  range_config env tmp config st = Err e ↔
  ∃ before x after,
    survivors env config = before ++ x :: after ∧
    Forall (renders tmp) before ∧
    render x.1.2 x.2 (template_data tmp x.2) = Err e.
Proof. rewrite range_config_survivors. apply materialize_all_Err_iff. Qed.

Lemma loop_error_is_first_failure_witness :
  range_config [] "/w/t" config_two_malformed start
  = Err "invalid A template: unclosed action" ∧
  range_config [] "/w/t" (reverse config_two_malformed) start
  = Err "invalid B template: missing value for command".
Proof.
  split.
  - apply (proj2 (loop_error_is_first_failure [] "/w/t" config_two_malformed
                    start "invalid A template: unclosed action")).
    exists [],
      ("image-a", "A",
       {| Template := "{{.Files.a"; Files := [("a", "/a")]; Directories := [] |}),
      [("image-b", "B",
        {| Template := "{{}}"; Files := []; Directories := [] |})].
    split; [reflexivity|]. split; [constructor|]. vm_compute. reflexivity.
  - apply (proj2 (loop_error_is_first_failure [] "/w/t"
                    (reverse config_two_malformed) start
                    "invalid B template: missing value for command")).
    exists [],
      ("image-b", "B",
       {| Template := "{{}}"; Files := []; Directories := [] |}),
      [("image-a", "A",
        {| Template := "{{.Files.a"; Files := [("a", "/a")]; Directories := [] |})].
    split; [reflexivity|]. split; [constructor|]. vm_compute. reflexivity.
Defined.

(** ** Everything set by the caller *)

Lemma survivors_all_set (env : list (string * string)) (config : TestEnvConfig) :
  (∀ c envs v varConf,
     (c, envs) ∈ config → (v, varConf) ∈ envs → os.Getenv env v ≠ "") →
  survivors env config = [].
Proof.
  intros Hset. destruct (survivors env config) as [|[[c v] varConf] l] eqn:Hs;
    [done|].
  assert ((c, v, varConf) ∈ survivors env config) as Hin
    by (rewrite Hs; by left).
  apply elem_of_survivors in Hin as (envs & Hc & Hv & Hunset).
  by destruct (Hset c envs v varConf).
Qed.

(** X8: when every variable of the configuration has a non-empty value in
    the process environment, no template is parsed (a malformed one goes
    unnoticed), nothing is staged and nothing is appended; the program
    still creates the temporary directory, exports the empty container
    there and executes the command with the process environment as it
    is. *)
Theorem fully_overridden_runs_unchanged (h : Host) (config : TestEnvConfig)
    (name : string) (rest : list string) (random tmp : string) :
  (∀ c envs v varConf,
     (c, envs) ∈ config → (v, varConf) ∈ envs →
     os.Getenv (environ h) v ≠ "") →
  os_MkdirTemp h = inl random →
  filepath.Abs (os_Getwd h) ("./ci-testing" +:+ random) = inl tmp →
  dagger_Export h = (true, None) →
  (∀ st, range_config (environ h) tmp config st = Ok st) ∧
  runNatively h config (name :: rest) =
  (Returns (wrap_run_error (cmd_Run h)),
   [ MkdirTempCall "." "ci-testing";
     Export [] ("./ci-testing" +:+ random);
     Exec name rest (os.Environ (environ h)) ]
   ++ (if keepArtifacts h then print_assignments [] else [])
   ++ (if keepArtifacts h then [] else [RemoveAll ("./ci-testing" +:+ random)])).
Proof.
  intros Hset Hmk Habs Hexp.
  assert (∀ st, range_config (environ h) tmp config st = Ok st) as Hloop.
  { intros st. by rewrite range_config_survivors, survivors_all_set. }
  split; [done|].
  rewrite (runNatively_reaches_command h config name rest random tmp start)
    by done.
  cbn [base envv start]. by rewrite app_nil_r.
Qed.

Lemma fully_overridden_runs_unchanged_witness :
  runNatively host_all_set config_malformed ["go"; "test"] =
  (Returns None,
   [ MkdirTempCall "." "ci-testing"; Export [] "./ci-testing8";
     Exec "go" ["test"]
       ["VMTEST_KERNEL=/boot/vmlinuz"; "VMTEST_QEMU=qemu-system-x86_64"];
     RemoveAll "./ci-testing8" ]).
Proof.
  apply (fully_overridden_runs_unchanged host_all_set config_malformed
           "go" ["test"] "8" "/w/ci-testing8"); try (vm_compute; reflexivity).
  intros c envs v varConf Hc Hv.
  apply list_elem_of_singleton in Hc. injection Hc as -> ->.
  apply list_elem_of_singleton in Hv. injection Hv as -> ->.
  vm_compute. discriminate.
Defined.

(** ** The data of a template *)

(** X9: in the data a template is executed over, every name the spec
    declares is defined: a name declared as a directory stands for the
    temporary directory joined with the directory's path, also when the
    name is declared as a file too (the directories are written after the
    files); a name declared only as a file stands for the temporary
    directory joined with the file's path; a name declared as neither is
    not defined. *)
Theorem template_data_declared (tmp : string) (varConf : EnvVar) (k : string) :
  NoDup (Files varConf).*1 → NoDup (Directories varConf).*1 →
  (∀ d, (k, d) ∈ Directories varConf →
        template_data tmp varConf !! k = Some (filepath.Join tmp d)) ∧
  (∀ f, (k, f) ∈ Files varConf → k ∉ (Directories varConf).*1 →
        template_data tmp varConf !! k = Some (filepath.Join tmp f)) ∧
  (k ∉ (Files varConf).*1 → k ∉ (Directories varConf).*1 →
   template_data tmp varConf !! k = None).
Proof.
  intros Hfiles Hdirs. unfold template_data, stage.
  rewrite stage_directory_fold, stage_file_fold. cbn [fst snd].
  split; [|split].
  - intros d Hd. by apply (fold_insert_lookup_elem (filepath.Join tmp)).
  - intros f Hf Hk.
    rewrite (fold_insert_lookup_notin (filepath.Join tmp)) by done.
    by apply (fold_insert_lookup_elem (filepath.Join tmp)).
  - intros Hf Hd.
    by rewrite !(fold_insert_lookup_notin (filepath.Join tmp)) by done.
Qed.

Lemma template_data_declared_witness :
  template_data "/t" spec_file_and_directory !! "x" = Some "/t/dir-x" ∧
  template_data "/t" spec_file_and_directory !! "y" = Some "/t/file-y" ∧
  template_data "/t" spec_file_and_directory !! "z" = None.
Proof.
  assert (NoDup (Files spec_file_and_directory).*1) as Hfiles
    by (apply (bool_decide_unpack _); vm_compute; exact I).
  assert (NoDup (Directories spec_file_and_directory).*1) as Hdirs
    by (apply (bool_decide_unpack _); vm_compute; exact I).
  split; [|split].
  - apply (proj1 (template_data_declared "/t" spec_file_and_directory "x"
                    Hfiles Hdirs) "/dir-x").
    left.
  - apply (proj1 (proj2 (template_data_declared "/t" spec_file_and_directory
                           "y" Hfiles Hdirs)) "/file-y").
    + right. left.
    + apply (bool_decide_unpack _). vm_compute. exact I.
  - apply (proj2 (proj2 (template_data_declared "/t" spec_file_and_directory
                            "z" Hfiles Hdirs)));
      apply (bool_decide_unpack _); vm_compute; exact I.
Defined.

(** ** A variable that is set but empty *)

(** X10: a variable that is in the process environment with the empty
    value does not count as set: its spec is not skipped, and the list
    assigned to [cmd.Env] holds both entries of that name, the empty one of
    the process environment first and the rendered one after it.  (Of
    entries with one name [os/exec] passes the last one to the command;
    that is not part of this statement.) *)
Theorem empty_value_is_not_an_override (h : Host) (config : TestEnvConfig)
    (args : list string) (c : string) (envs : list (string * EnvVar))
    (v : string) (varConf : EnvVar) (name : string) (cargs cenv : list string) :
  (v, "") ∈ environ h → os.Getenv (environ h) v = "" →
  (c, envs) ∈ config → (v, varConf) ∈ envs →
  Exec name cargs cenv ∈ (runNatively h config args).2 →
  ∃ tmp s i j,
    render v varConf (template_data tmp varConf) = Ok s ∧
    cenv !! i = Some (v +:+ "=") ∧
    cenv !! j = Some (v +:+ "=" +:+ s) ∧
    i < j.
Proof.
  intros Henv Hunset Hc Hv Hin.
  destruct (runNatively_executed_inv _ _ _ _ _ _ Hin)
    as (random & tmp & st & _ & _ & Hloop & _ & _ & ->).
  rewrite range_config_survivors in Hloop.
  apply materialize_all_Ok in Hloop as (_ & values & Hvalues & Henvv).
  assert ((c, v, varConf) ∈ survivors (environ h) config) as Hsurv
    by (apply elem_of_survivors; eauto).
  apply list_elem_of_lookup in Hsurv as [k Hk].
  destruct (Forall2_lookup_l _ _ _ _ _ Hvalues Hk) as (s & Hs & Hr).
  cbn in Hr.
  apply (list_elem_of_fmap_2 os.assignment) in Henv.
  apply list_elem_of_lookup in Henv as [i Hi].
  exists tmp, s, i, (length (os.Environ (environ h)) + k).
  split; [done|]. split; [by apply lookup_app_l_Some|]. split.
  - rewrite lookup_app_r, Nat.add_comm, Nat.add_sub by lia.
    rewrite Henvv. cbn [envv start app].
    apply lookup_zip_with_Some. by exists (c, v, varConf), s.
  - apply lookup_lt_Some in Hi. rewrite length_fmap in Hi.
    unfold os.Environ. rewrite length_map. lia.
Qed.

Lemma empty_value_is_not_an_override_witness :
  ∃ tmp s i j,
    render "VMTEST_KERNEL" spec_kernel_amd64 (template_data tmp spec_kernel_amd64)
    = Ok s ∧
    [ "VMTEST_KERNEL="; "VMTEST_QEMU=qemu-system-x86_64";
      "VMTEST_KERNEL=/w/ci-testing8/bzImage" ] !! i = Some "VMTEST_KERNEL=" ∧
    [ "VMTEST_KERNEL="; "VMTEST_QEMU=qemu-system-x86_64";
      "VMTEST_KERNEL=/w/ci-testing8/bzImage" ] !! j
    = Some ("VMTEST_KERNEL=" +:+ s) ∧
    i < j.
Proof.
  apply (empty_value_is_not_an_override host_empty_value config_amd64
           ["go"; "test"] "ghcr.io/hugelgupf/vmtest/kernel-amd64:main"
           [("VMTEST_KERNEL", spec_kernel_amd64)] "VMTEST_KERNEL"
           spec_kernel_amd64 "go" ["test"]).
  - left.
  - reflexivity.
  - left.
  - left.
  - vm_compute. do 2 right. left.
Defined.


(** ** The visiting order *)

Lemma survivors_reordered (env : list (string * string))
    (config config' : TestEnvConfig) :
  reordered config config' → survivors env config ≡ₚ survivors env config'.
Proof.
  intros (mid & Hinner & Houter). trans (survivors env mid).
  - unfold survivors. clear Houter.
    induction Hinner as [|[c envs] [c' envs'] l l' [Hc Henvs] _ IH]; [done|].
    rewrite !bind_cons. cbn in Hc, Henvs. subst c'. cbn [fst snd].
    by rewrite Henvs, IH.
  - unfold survivors. by rewrite Houter.
Qed.

Lemma reordered_elem_of (config config' : TestEnvConfig) (c : string)
    (envs' : list (string * EnvVar)) :
  reordered config config' → (c, envs') ∈ config' →
  ∃ envs, (c, envs) ∈ config ∧ envs ≡ₚ envs'.
Proof.
  intros (mid & Hinner & Houter) Hin. rewrite <- Houter in Hin.
  apply list_elem_of_lookup in Hin as [i Hi].
  destruct (Forall2_lookup_r _ _ _ _ _ Hinner Hi) as ([c0 envs] & H0 & Hc & He).
  cbn in Hc, He. subst c0. exists envs. split; [|done].
  by eapply list_elem_of_lookup_2.
Qed.

(** X11: the order in which Go visits the maps changes the order of the
    result and nothing else: if the loop completes in one visiting order it
    completes in every other, and it stages the same operations and appends
    the same assignments, each as many times, in another order. *)
Theorem visiting_order_permutes_result (env : list (string * string))
    (tmp : string) (config config' : TestEnvConfig) (st st1 : loop_state) :
  reordered config config' →
  range_config env tmp config st = Ok st1 →
  ∃ st2,
    range_config env tmp config' st = Ok st2 ∧
    base st2 ≡ₚ base st1 ∧ envv st2 ≡ₚ envv st1.
Proof.
  intros Hre Hloop. pose proof (survivors_reordered env _ _ Hre) as Hperm.
  rewrite range_config_survivors in Hloop.
  pose proof (materialize_all_renders _ _ _ _ Hloop) as Hall.
  rewrite materialize_all_complete in Hloop by done. simplify_eq.
  rewrite range_config_survivors, materialize_all_complete
    by (by rewrite <- Hperm).
  eexists. split; [done|]. cbn [base envv]. by rewrite Hperm.
Qed.

Lemma visiting_order_permutes_result_witness :
  ∃ st2,
    range_config (environ host_amd64) "/t" (reverse config_amd64) start = Ok st2 ∧
    base st2 ≡ₚ
      [ WithFile "/bzImage" "ghcr.io/hugelgupf/vmtest/kernel-amd64:main" "/bzImage";
        WithDirectory "/zqemu" "ghcr.io/hugelgupf/vmtest/qemu:main" "/zqemu" ] ∧
    envv st2 ≡ₚ
      [ "VMTEST_KERNEL=/t/bzImage";
        "VMTEST_QEMU=/t/zqemu/bin/qemu-system-x86_64 -L /t/zqemu/pc-bios -m 1G" ].
Proof.
  apply (visiting_order_permutes_result (environ host_amd64) "/t" config_amd64
           (reverse config_amd64) start
           {| base := [ WithFile "/bzImage" "ghcr.io/hugelgupf/vmtest/kernel-amd64:main" "/bzImage";
                        WithDirectory "/zqemu" "ghcr.io/hugelgupf/vmtest/qemu:main" "/zqemu" ];
              envv := [ "VMTEST_KERNEL=/t/bzImage";
                        "VMTEST_QEMU=/t/zqemu/bin/qemu-system-x86_64 -L /t/zqemu/pc-bios -m 1G" ] |}).
  - exists config_amd64. split.
    + apply Forall2_same_length_lookup_2; [done|].
      intros i a b Ha Hb. by simplify_eq.
    + symmetry. apply reverse_Permutation.
  - vm_compute. reflexivity.
Defined.

(** ** The table *)

(** Every spec of the table renders, whatever the temporary directory. *)
Lemma table_spec_renders (tmp arch : string) (c : TestEnvConfig)
    (containerName : string) (envs : list (string * EnvVar)) (v : string)
    (varConf : EnvVar) :
  configs !! arch = Some c → (containerName, envs) ∈ c → (v, varConf) ∈ envs →
  (v = "VMTEST_KERNEL" ∨ v = "VMTEST_QEMU") ∧
  renders tmp (containerName, v, varConf).
Proof.
  rewrite configs_lookup. intros Hc Hcn Hv.
  repeat case_decide; simplify_eq;
    unfold config_amd64, config_arm, config_arm64 in Hcn;
    rewrite !elem_of_cons, elem_of_nil in Hcn;
    destruct Hcn as [Hcn|[Hcn|[]]]; simplify_eq;
    rewrite elem_of_cons, elem_of_nil in Hv;
    destruct Hv as [Hv|[]]; simplify_eq;
    (split; [auto|]); unfold renders; cbn [fst snd];
    render_table; eauto.
Qed.

Lemma survivors_length_le (env : list (string * string)) (config : TestEnvConfig) :
  (length (survivors env config)
   ≤ sum_list ((λ ce : string * list (string * EnvVar), length ce.2) <$> config))%nat.
Proof.
  unfold survivors. induction config as [|[c envs] config IH]; [done|].
  rewrite bind_cons, length_app, fmap_cons. cbn [sum_list fst snd].
  pose proof (length_filter
                (λ x : string * string * EnvVar, os.Getenv env x.1.2 = "")
                ((λ e : string * EnvVar, (c, e.1, e.2)) <$> envs)) as Hlen.
  rewrite length_fmap in Hlen. unfold id.
  apply Nat.add_le_mono; [exact Hlen|exact IH].
Qed.

(** X12: the specs of the table are well formed: for every architecture
    of the table, every process environment, every temporary directory and
    every visiting order, the loop completes (no template fails, none
    leaves the modelled fragment), and what it appends are assignments of
    VMTEST_KERNEL and VMTEST_QEMU, at most two. *)
Theorem table_templates_render (arch : string) (c config : TestEnvConfig)
    (env : list (string * string)) (tmp : string) :
  configs !! arch = Some c → reordered c config →
  ∃ st,
    range_config env tmp config start = Ok st ∧
    (length (envv st) ≤ 2)%nat ∧
    ∀ entry, entry ∈ envv st →
      ∃ s, entry = "VMTEST_KERNEL=" +:+ s ∨ entry = "VMTEST_QEMU=" +:+ s.
Proof.
  intros Harch Hre.
  assert (∀ x, x ∈ survivors env config →
               (x.1.2 = "VMTEST_KERNEL" ∨ x.1.2 = "VMTEST_QEMU") ∧ renders tmp x)
    as Hspecs.
  { intros [[cn v] varConf] Hx.
    apply elem_of_survivors in Hx as (envs' & Hcn & Hv & _).
    destruct (reordered_elem_of _ _ _ _ Hre Hcn) as (envs & Hcn0 & Henvs).
    rewrite <- Henvs in Hv. by eapply table_spec_renders. }
  rewrite range_config_survivors, materialize_all_complete
    by (apply Forall_forall; intros x Hx; by apply Hspecs).
  eexists. split; [done|]. cbn [envv start app]. split.
  - rewrite length_fmap, <- (survivors_reordered env _ _ Hre).
    etrans; [apply survivors_length_le|].
    revert Harch. rewrite configs_lookup.
    repeat case_decide; intros ?; simplify_eq; cbn; lia.
  - intros entry ([[cn v] varConf] & -> & Hx)%list_elem_of_fmap.
    destruct (Hspecs _ Hx) as [[Hv|Hv] _]; cbn in Hv; subst v;
      unfold entry_of; cbn [fst snd]; eexists; [by left|by right].
Qed.

Lemma table_templates_render_witness :
  ∃ st,
    range_config [("VMTEST_QEMU", "qemu")] "/t" (reverse config_arm) start = Ok st ∧
    (length (envv st) ≤ 2)%nat ∧
    ∀ entry, entry ∈ envv st →
      ∃ s, entry = "VMTEST_KERNEL=" +:+ s ∨ entry = "VMTEST_QEMU=" +:+ s.
Proof.
  apply (table_templates_render "arm" config_arm).
  - vm_compute. reflexivity.
  - exists config_arm. split.
    + apply Forall2_same_length_lookup_2; [done|].
      intros i a b Ha Hb. by simplify_eq.
    + symmetry. apply reverse_Permutation.
Defined.

(** ** arm and arm64 *)

Lemma render_kernel_arm (tmp : string) :
  clean_abs tmp →
  render "VMTEST_KERNEL" spec_kernel_arm (template_data tmp spec_kernel_arm)
  = Ok (tmp +:+ "/zImage").
Proof.
  intros Htmp. unfold spec_kernel_arm. render_table. cbn.
  replace (filepath.Join tmp "/zImage") with (tmp +:+ "/zImage")
    by (symmetry; by apply (Join_clean_abs tmp "zImage")).
  by rewrite append_nil_r.
Qed.

Lemma render_qemu_arm (tmp : string) :
  clean_abs tmp →
  render "VMTEST_QEMU" spec_qemu_arm (template_data tmp spec_qemu_arm)
  = Ok (tmp +:+ "/zqemu/bin/qemu-system-arm -M virt,highmem=off -L " +:+ tmp
        +:+ "/zqemu/pc-bios").
Proof.
  intros Htmp. unfold spec_qemu_arm. render_table. cbn.
  replace (filepath.Join tmp "/zqemu") with (tmp +:+ "/zqemu")
    by (symmetry; by apply (Join_clean_abs tmp "zqemu")).
  by rewrite append_nil_r, !append_assoc.
Qed.

Lemma render_kernel_arm64 (tmp : string) :
  clean_abs tmp →
  render "VMTEST_KERNEL" spec_kernel_arm64 (template_data tmp spec_kernel_arm64)
  = Ok (tmp +:+ "/Image").
Proof.
  intros Htmp. unfold spec_kernel_arm64. render_table. cbn.
  replace (filepath.Join tmp "/Image") with (tmp +:+ "/Image")
    by (symmetry; by apply (Join_clean_abs tmp "Image")).
  by rewrite append_nil_r.
Qed.

Lemma render_qemu_arm64 (tmp : string) :
  clean_abs tmp →
  render "VMTEST_QEMU" spec_qemu_arm64 (template_data tmp spec_qemu_arm64)
  = Ok (tmp +:+ "/zqemu/bin/qemu-system-aarch64 -machine virt -cpu max -m 1G -L "
        +:+ tmp +:+ "/zqemu/pc-bios").
Proof.
  intros Htmp. unfold spec_qemu_arm64. render_table. cbn.
  replace (filepath.Join tmp "/zqemu") with (tmp +:+ "/zqemu")
    by (symmetry; by apply (Join_clean_abs tmp "zqemu")).
  by rewrite append_nil_r, !append_assoc.
Qed.

(** X13: for arm (named by VMTEST_ARCH, or the host's architecture when
    VMTEST_ARCH names no entry), with VMTEST_KERNEL and VMTEST_QEMU unset,
    in whatever order the configuration is visited, the assignments are
    exactly [VMTEST_KERNEL=<tmp>/zImage] and
    [VMTEST_QEMU=<tmp>/zqemu/bin/qemu-system-arm -M virt,highmem=off -L <tmp>/zqemu/pc-bios],
    [<tmp>] being the absolute path of the temporary directory. *)
Theorem arm_assignments (h : Host) (config : TestEnvConfig)
    (wd random : string) :
  os.Getenv (environ h) "VMTEST_ARCH" = "arm" ∨
  (configs !! os.Getenv (environ h) "VMTEST_ARCH" = None ∧ GOARCH h = "arm") →
  config ≡ₚ defaultConfig (environ h) (GOARCH h) →
  os.Getenv (environ h) "VMTEST_KERNEL" = "" →
  os.Getenv (environ h) "VMTEST_QEMU" = "" →
  os_MkdirTemp h = inl random → slash_free random = true →
  os_Getwd h = inl wd → filepath.IsAbs wd = true →
  ∃ tmp st,
    filepath.Abs (os_Getwd h) ("./ci-testing" +:+ random) = inl tmp ∧
    range_config (environ h) tmp config start = Ok st ∧
    envv st ≡ₚ
      [ "VMTEST_KERNEL=" +:+ tmp +:+ "/zImage";
        "VMTEST_QEMU=" +:+ tmp
          +:+ "/zqemu/bin/qemu-system-arm -M virt,highmem=off -L "
          +:+ tmp +:+ "/zqemu/pc-bios" ].
Proof.
  intros Harch Hperm Hkernel Hqemu Hmk Hrandom Hwd Habs.
  assert (defaultConfig (environ h) (GOARCH h) = config_arm) as Hcfg.
  { unfold defaultConfig. destruct Harch as [->|[-> ->]]; done. }
  rewrite Hcfg in Hperm.
  destruct (Abs_ci_testing wd random Habs Hrandom) as (tmp & Htmp & Hclean).
  rewrite <- Hwd in Htmp. exists tmp.
  symmetry in Hperm. apply Permutation_length_2_inv in Hperm as [->| ->];
    rewrite range_config_survivors; unfold survivors;
    cbn [mbind list_bind fmap list_fmap fst snd app];
    rewrite !filter_cons, !filter_nil; cbn [fst snd];
    rewrite !decide_True by done;
    cbn [materialize_all app]; unfold materialize; cbn [fst snd];
    fold spec_kernel_arm; fold spec_qemu_arm;
    rewrite render_kernel_arm, render_qemu_arm by done;
    cbn; eexists; (split; [done|]); (split; [reflexivity|]); cbn [envv].
  - done.
  - apply perm_swap.
Qed.

Lemma arm_assignments_witness :
  ∃ tmp st,
    filepath.Abs (os_Getwd host_arm) "./ci-testing12" = inl tmp ∧
    range_config (environ host_arm) tmp config_arm start = Ok st ∧
    envv st ≡ₚ
      [ "VMTEST_KERNEL=" +:+ tmp +:+ "/zImage";
        "VMTEST_QEMU=" +:+ tmp
          +:+ "/zqemu/bin/qemu-system-arm -M virt,highmem=off -L "
          +:+ tmp +:+ "/zqemu/pc-bios" ].
Proof.
  apply (arm_assignments host_arm config_arm "/src" "12");
    try (vm_compute; reflexivity).
  right. vm_compute. split; reflexivity.
Defined.

(** X14: for arm64 (named by VMTEST_ARCH, or the host's architecture when
    VMTEST_ARCH names no entry), with VMTEST_KERNEL and VMTEST_QEMU unset,
    in whatever order the configuration is visited, the assignments are
    exactly [VMTEST_KERNEL=<tmp>/Image] and
    [VMTEST_QEMU=<tmp>/zqemu/bin/qemu-system-aarch64 -machine virt -cpu max -m 1G -L <tmp>/zqemu/pc-bios],
    [<tmp>] being the absolute path of the temporary directory. *)
Theorem arm64_assignments (h : Host) (config : TestEnvConfig)
    (wd random : string) :
  os.Getenv (environ h) "VMTEST_ARCH" = "arm64" ∨
  (configs !! os.Getenv (environ h) "VMTEST_ARCH" = None ∧ GOARCH h = "arm64") →
  config ≡ₚ defaultConfig (environ h) (GOARCH h) →
  os.Getenv (environ h) "VMTEST_KERNEL" = "" →
  os.Getenv (environ h) "VMTEST_QEMU" = "" →
  os_MkdirTemp h = inl random → slash_free random = true →
  os_Getwd h = inl wd → filepath.IsAbs wd = true →
  ∃ tmp st,
    filepath.Abs (os_Getwd h) ("./ci-testing" +:+ random) = inl tmp ∧
    range_config (environ h) tmp config start = Ok st ∧
    envv st ≡ₚ
      [ "VMTEST_KERNEL=" +:+ tmp +:+ "/Image";
        "VMTEST_QEMU=" +:+ tmp
          +:+ "/zqemu/bin/qemu-system-aarch64 -machine virt -cpu max -m 1G -L "
          +:+ tmp +:+ "/zqemu/pc-bios" ].
Proof.
  intros Harch Hperm Hkernel Hqemu Hmk Hrandom Hwd Habs.
  assert (defaultConfig (environ h) (GOARCH h) = config_arm64) as Hcfg.
  { unfold defaultConfig. destruct Harch as [->|[-> ->]]; done. }
  rewrite Hcfg in Hperm.
  destruct (Abs_ci_testing wd random Habs Hrandom) as (tmp & Htmp & Hclean).
  rewrite <- Hwd in Htmp. exists tmp.
  symmetry in Hperm. apply Permutation_length_2_inv in Hperm as [->| ->];
    rewrite range_config_survivors; unfold survivors;
    cbn [mbind list_bind fmap list_fmap fst snd app];
    rewrite !filter_cons, !filter_nil; cbn [fst snd];
    rewrite !decide_True by done;
    cbn [materialize_all app]; unfold materialize; cbn [fst snd];
    fold spec_kernel_arm64; fold spec_qemu_arm64;
    rewrite render_kernel_arm64, render_qemu_arm64 by done;
    cbn; eexists; (split; [done|]); (split; [reflexivity|]); cbn [envv].
  - done.
  - apply perm_swap.
Qed.

Lemma arm64_assignments_witness :
  ∃ tmp st,
    filepath.Abs (os_Getwd host_arm64_override) "./ci-testing12" = inl tmp ∧
    range_config (environ host_arm64_override) tmp config_arm64 start = Ok st ∧
    envv st ≡ₚ
      [ "VMTEST_KERNEL=" +:+ tmp +:+ "/Image";
        "VMTEST_QEMU=" +:+ tmp
          +:+ "/zqemu/bin/qemu-system-aarch64 -machine virt -cpu max -m 1G -L "
          +:+ tmp +:+ "/zqemu/pc-bios" ].
Proof.
  apply (arm64_assignments host_arm64_override config_arm64 "/src" "12");
    try (vm_compute; reflexivity).
  left. vm_compute. reflexivity.
Defined.

Lemma main_exit_status_witness :
  (main FlagsParsed host_keep_failing).1
  = Exit 1 (Some "Error: failed execution: exit status 1").
Proof.
  apply (proj1 (proj2 (proj2 (proj2
           (main_exit_status FlagsParsed host_keep_failing))))).
  - reflexivity.
  - vm_compute. reflexivity.
Defined.

(** ** The errors of run *)

Lemma defaultConfig_loop_completes (env : list (string * string))
    (goarch tmp : string) :
  ∃ st, range_config env tmp (defaultConfig env goarch) start = Ok st.
Proof.
  assert (defaultConfig env goarch = []
          ∨ ∃ arch, configs !! arch = Some (defaultConfig env goarch))
    as [->|[arch Harch]].
  { unfold defaultConfig.
    destruct (configs !! os.Getenv env "VMTEST_ARCH") eqn:H1; [eauto|].
    destruct (configs !! goarch) eqn:H2; eauto. }
  { by exists start. }
  rewrite range_config_survivors, materialize_all_complete; [eauto|].
  apply Forall_forall. intros [[cn v] varConf] Hx.
  apply elem_of_survivors in Hx as (envs & Hcn & Hv & _).
  by eapply table_spec_renders.
Qed.

Lemma Abs_ci_testing_cases (getwd : string + string) (random : string) :
  filepath.Abs getwd ("./ci-testing" +:+ random) =
  match getwd with
  | inl wd => inl (filepath.Join wd ("./ci-testing" +:+ random))
  | inr e => inr e
  end.
Proof. reflexivity. Qed.

(** X15: every error [run] returns is one of these six, each telling the
    step that failed: too few arguments, the connection, the creation of
    the temporary directory, its absolute path, the export, the command.
    With the table as it is, [run] never returns a template error. *)
Theorem run_error_taxonomy (h : Host) (e : string) :
  (run h).1 = Returns (Some e) →
  (length (flag_Args h) < 2 ∧
   e = "too few arguments: usage: `" +:+ os_Args0 h +:+ " -- ./test-to-run`") ∨
  (∃ cause, dagger_Connect h = Some cause ∧
            e = "unable to connect to client: " +:+ cause) ∨
  (∃ cause, os_MkdirTemp h = inr cause ∧
            e = "unable to create tmp dir: " +:+ cause) ∨
  (∃ cause, os_Getwd h = inr cause ∧
            e = "could not retrieve absolute path: " +:+ cause) ∨
  (∃ cause, dagger_Export h = (false, None) ∧ cause = "%!w(<nil>)" ∧
            e = "failed artifact export: " +:+ cause) ∨
  (∃ ok cause, dagger_Export h = (ok, Some cause) ∧
               e = "failed artifact export: " +:+ cause) ∨
  (∃ cause, cmd_Run h = Some cause ∧ e = "failed execution: " +:+ cause).
Proof.
  unfold run. case_decide as Hlen.
  { intros [= <-]. by left. }
  destruct (dagger_Connect h) as [cause|] eqn:Hconn.
  { intros [= <-]. right; left. eauto. }
  cbn [fst]. unfold runNatively.
  destruct (os_MkdirTemp h) as [random|cause] eqn:Hmk;
    rewrite ?MkdirTemp_ci_testing.
  2:{ intros [= <-]. do 2 right; left. eauto. }
  rewrite Abs_ci_testing_cases.
  destruct (os_Getwd h) as [wd|cause] eqn:Hwd.
  2:{ intros [= <-]. do 3 right; left. eauto. }
  destruct (defaultConfig_loop_completes (environ h) (GOARCH h)
              (filepath.Join wd ("./ci-testing" +:+ random))) as [st ->].
  lazy zeta.
  destruct (dagger_Export h) as [[|] [cause|]] eqn:Hexp.
  - cbn [fst]. intros [= <-]. do 5 right; left. eauto.
  - destruct (flag_Args h) as [|name rest]; [simpl in Hlen; lia|].
    destruct (cmd_Run h) as [cause|] eqn:Hrun; cbn [fst].
    + intros [= <-]. do 6 right. eauto.
    + done.
  - cbn [fst]. intros [= <-]. do 5 right; left. eauto.
  - cbn [fst]. intros [= <-]. do 4 right; left. eauto.
Qed.

Lemma run_error_taxonomy_witness :
  (run host_export_fails).1
  = Returns (Some "failed artifact export: %!w(<nil>)") ∧
  ((length (flag_Args host_export_fails) < 2 ∧
    "failed artifact export: %!w(<nil>)"
    = "too few arguments: usage: `" +:+ os_Args0 host_export_fails
      +:+ " -- ./test-to-run`") ∨
   (∃ cause, dagger_Connect host_export_fails = Some cause ∧
             "failed artifact export: %!w(<nil>)"
             = "unable to connect to client: " +:+ cause) ∨
   (∃ cause, os_MkdirTemp host_export_fails = inr cause ∧
             "failed artifact export: %!w(<nil>)"
             = "unable to create tmp dir: " +:+ cause) ∨
   (∃ cause, os_Getwd host_export_fails = inr cause ∧
             "failed artifact export: %!w(<nil>)"
             = "could not retrieve absolute path: " +:+ cause) ∨
   (∃ cause, dagger_Export host_export_fails = (false, None) ∧
             cause = "%!w(<nil>)" ∧
             "failed artifact export: %!w(<nil>)"
             = "failed artifact export: " +:+ cause) ∨
   (∃ ok cause, dagger_Export host_export_fails = (ok, Some cause) ∧
                "failed artifact export: %!w(<nil>)"
                = "failed artifact export: " +:+ cause) ∨
   (∃ cause, cmd_Run host_export_fails = Some cause ∧
             "failed artifact export: %!w(<nil>)"
             = "failed execution: " +:+ cause)).
Proof.
  assert ((run host_export_fails).1
          = Returns (Some "failed artifact export: %!w(<nil>)")) as Hrun
    by (vm_compute; reflexivity).
  split; [exact Hrun|].
  exact (run_error_taxonomy host_export_fails
           "failed artifact export: %!w(<nil>)" Hrun).
Defined.
